(** * Interview sorter (chat2.0.py): reply parsing, outline splitting,
      coverage summary and the upload handler

    A shallow embedding of [src/chat2.0.py].  Python [str] values are
    sequences of Unicode code points; Python exceptions are the [Raise]
    results of a small error monad; the Streamlit session, the messages shown
    to the user and the remote call are threaded through a state monad. *)

From Stdlib Require Import List NArith Bool Arith Lia.
From Stdlib Require String Ascii DecimalString.
Import String.StringSyntax.
Delimit Scope string_scope with string.
Import ListNotations.
Local Open Scope list_scope.

(** ** Python values *)

Module Py.

(** A [str] is a sequence of code points. *)
Definition char := N.
Definition str := list char.

Inductive exn :=
| ValueError (msg : str)
| IndexError
| KeyError (key : str)
| Exception (msg : str)
| UnicodeEncodeError.

Inductive result (A : Type) :=
| Ok (a : A)
| Raise (e : exn).
Arguments Ok {A} a.
Arguments Raise {A} e.

Definition bind {A B} (r : result A) (k : A -> result B) : result B :=
  match r with
  | Ok a => k a
  | Raise e => Raise e
  end.

Fixpoint str_eqb (a b : str) : bool :=
  match a, b with
  | [], [] => true
  | x :: a', y :: b' => N.eqb x y && str_eqb a' b'
  | _, _ => false
  end.

(** Truth value of a string: [if s]. *)
Definition truthy (s : str) : bool :=
  match s with
  | [] => false
  | _ :: _ => true
  end.

(** [str.isspace] on one code point: the code points CPython's
    [_PyUnicode_IsWhitespace] accepts, which are those [str.strip()]
    removes. *)
Definition isspace (c : char) : bool :=
  ((0x09 <=? c) && (c <=? 0x0D) || (0x1C <=? c) && (c <=? 0x20)
   || (c =? 0x85) || (c =? 0xA0) || (c =? 0x1680)
   || (0x2000 <=? c) && (c <=? 0x200A)
   || (c =? 0x2028) || (c =? 0x2029) || (c =? 0x202F) || (c =? 0x205F)
   || (c =? 0x3000))%N.

Fixpoint lstrip (s : str) : str :=
  match s with
  | [] => []
  | c :: s' => if isspace c then lstrip s' else s
  end.

Definition rstrip (s : str) : str := rev (lstrip (rev s)).

(** [s.strip()] *)
Definition strip (s : str) : str := rstrip (lstrip s).

(** A code point of the surrogate range U+D800..U+DFFF: a [str] may hold one
    (JSON escapes deliver them), and it has no UTF-8 encoding. *)
Definition is_surrogate (c : char) : bool :=
  ((0xD800 <=? c) && (c <=? 0xDFFF))%N.

(** [s.encode('utf-8')] succeeds. *)
Definition encodable (s : str) : bool := negb (existsb is_surrogate s).

(** [s.startswith(p)] *)
Fixpoint startswith (s p : str) : bool :=
  match p, s with
  | [], _ => true
  | _ :: _, [] => false
  | x :: p', y :: s' => N.eqb x y && startswith s' p'
  end.

(** [s.endswith(p)] *)
Definition endswith (s p : str) : bool := startswith (rev s) (rev p).

(** [sub in s] *)
Fixpoint str_in (sub s : str) : bool :=
  startswith s sub ||
  match s with
  | [] => false
  | _ :: s' => str_in sub s'
  end.

(** The scan of [s.split(sep)] for a non-empty [sep]: [skip] counts the code
    points of a separator just matched that are still to be passed over,
    [cur] is the field read so far, reversed. *)
Fixpoint split_scan (sep s : str) (skip : nat) (cur : str) : list str :=
  match s with
  | [] => [rev cur]
  | c :: s' =>
      match skip with
      | S k => split_scan sep s' k cur
      | O =>
          if startswith s sep
          then rev cur :: split_scan sep s' (length sep - 1) []
          else split_scan sep s' 0 (c :: cur)
      end
  end.

(** [s.split(sep)] with an explicit separator. *)
Definition split (s sep : str) : result (list str) :=
  match sep with
  | [] => Raise (ValueError [0x65; 0x6D; 0x70; 0x74; 0x79; 0x20; 0x73; 0x65;
                             0x70; 0x61; 0x72; 0x61; 0x74; 0x6F; 0x72]%N)
  | _ :: _ => Ok (split_scan sep s 0 [])
  end.

(** [sep.join(xs)] *)
Fixpoint join (sep : str) (xs : list str) : str :=
  match xs with
  | [] => []
  | [x] => x
  | x :: t => x ++ sep ++ join sep t
  end.

(** [xs[i]] for [i >= 0]. *)
Definition getitem {A} (xs : list A) (i : nat) : result A :=
  match nth_error xs i with
  | Some x => Ok x
  | None => Raise IndexError
  end.

(** A [dict] with string keys and values, in insertion order. *)
Definition dict := list (str * str).

Fixpoint dict_get (d : dict) (k : str) : option str :=
  match d with
  | [] => None
  | (k', v) :: d' => if str_eqb k' k then Some v else dict_get d' k
  end.

(** A [for] loop over a list whose body updates an accumulator and may
    raise. *)
Fixpoint for_each {A S} (xs : list A) (body : S -> A -> result S) (st : S)
  : result S :=
  match xs with
  | [] => Ok st
  | x :: t => bind (body st x) (for_each t body)
  end.

End Py.

Import Py.

Notation "x <- e ;; k" := (bind e (fun x => k))
  (at level 61, e at next level, right associativity).

(** ** pandas, as far as the program uses it *)

Module Pd.

(** A cell is a string or missing (NaN). *)
Definition cell := option str.

Record DataFrame := {
  columns : list str;
  rows : list (list cell)
}.

Definition mem (k : str) (ks : list str) : bool := existsb (str_eqb k) ks.

(** Column labels of a frame built from records: every key, in order of
    first appearance. *)
Fixpoint add_keys (seen : list str) (ks : list str) : list str :=
  match ks with
  | [] => seen
  | k :: t => if mem k seen then add_keys seen t else add_keys (seen ++ [k]) t
  end.

Definition record_columns (data : list dict) : list str :=
  fold_left (fun seen d => add_keys seen (map fst d)) data [].

(** [pd.DataFrame(data)] for a list of dicts: the frame the constructor
    returns.  A pandas that keeps string cells as Python objects returns it
    for every list of dicts; see [from_records_utf8] for one that does
    not. *)
Definition from_records (data : list dict) : DataFrame :=
  let cols := record_columns data in
  {| columns := cols;
     rows := map (fun d => map (dict_get d) cols) data |}.

(** [pd.DataFrame(data)] under a pandas that stores string columns as UTF-8
    (the Arrow-backed string dtype): building the frame encodes every label
    and every value, and raises [UnicodeEncodeError] on one that holds a
    surrogate.  When it returns, the frame is [from_records data]. *)
Definition from_records_utf8 (data : list dict) : result DataFrame :=
  if forallb (fun d => forallb (fun kv => encodable (fst kv) &&
                                          encodable (snd kv)) d) data
  then Ok (from_records data)
  else Raise UnicodeEncodeError.

(** [len(df)] *)
Definition len (df : DataFrame) : nat := length (rows df).

Fixpoint index_of (k : str) (ks : list str) : option nat :=
  match ks with
  | [] => None
  | k' :: t => if str_eqb k' k then Some 0
               else option_map S (index_of k t)
  end.

(** [df[col]]: the column's cells, or [KeyError]. *)
Definition column (df : DataFrame) (col : str) : result (list cell) :=
  match index_of col (columns df) with
  | Some i => Ok (map (fun r => nth i r None) (rows df))
  | None => Raise (KeyError col)
  end.

(** The result of [value_counts()]: distinct non-missing values with their
    number of occurrences.  Only [get] reads it here, so the order of the
    index is left as first appearance. *)
Definition Series := list (str * nat).

Fixpoint bump (v : str) (s : Series) : Series :=
  match s with
  | [] => [(v, 1)]
  | (k, n) :: t => if str_eqb k v then (k, S n) :: t else (k, n) :: bump v t
  end.

Fixpoint value_counts (col : list cell) : Series :=
  match col with
  | [] => []
  | None :: t => value_counts t
  | Some v :: t => bump v (value_counts t)
  end.

(** [series.get(key, default)] *)
Fixpoint get (s : Series) (key : str) (default : nat) : nat :=
  match s with
  | [] => default
  | (k, n) :: t => if str_eqb k key then n else get t key default
  end.

End Pd.

(** ** String constants of the program *)

Definition nl : str := [0x0A]%N.                       (* "\n" *)
Definition bar : str := [0x7C]%N.                      (* "|" *)
(** The four keys of a record: "大纲问题", "匹配内容摘要", "覆盖情况",
    "建议补问". *)
Definition key_question : str := [0x5927; 0x7EB2; 0x95EE; 0x9898]%N.
Definition key_summary : str :=
  [0x5339; 0x914D; 0x5185; 0x5BB9; 0x6458; 0x8981]%N.
Definition key_coverage : str := [0x8986; 0x76D6; 0x60C5; 0x51B5]%N.
Definition key_followup : str := [0x5EFA; 0x8BAE; 0x8865; 0x95EE]%N.
(** The follow-up placeholder "无" (line 147), the one-character string
    U+65E0. *)
Definition followup_placeholder : str := [0x65E0]%N.
(** The labels the summary counts (lines 213-214): "充分" and "未覆盖". *)
Definition label_full : str := [0x5145; 0x5206]%N.
Definition label_none : str := [0x672A; 0x8986; 0x76D6]%N.

(** ** The outline splitter and the reply parser *)

(** Lines 58-62:
    [[line.strip() for line in text.split('\n') if line.strip()]] *)
Definition extract_questions_from_outline (text : str) : result (list str) :=
  lines <- split text nl ;;
  Ok (map strip (filter (fun line => truthy (strip line)) lines)).

(** The dict appended for one line. *)
Definition coverage_record (question summary coverage followup : str) : dict :=
  [ (key_question, question); (key_summary, summary);
    (key_coverage, coverage); (key_followup, followup) ].

(** The body of the loop of [parse_response] (lines 134-148): [data] after
    [line]. *)
Definition parse_response_step (data : list dict) (line : str)
  : result (list dict) :=
  raw <- split line bar ;;
  let parts := map strip raw in
  if 4 <=? length parts then
    p0 <- getitem parts 0 ;;
    p1 <- getitem parts 1 ;;
    p2 <- getitem parts 2 ;;
    p3 <- getitem parts 3 ;;
    Ok (data ++ [coverage_record p0 p1 p2 p3])
  else if length parts =? 3 then
    p0 <- getitem parts 0 ;;
    p1 <- getitem parts 1 ;;
    p2 <- getitem parts 2 ;;
    Ok (data ++ [coverage_record p0 p1 p2 followup_placeholder])
  else Ok data.

(** The list [data] that [parse_response] has built when it returns
    (lines 130-148). *)
Definition parse_response_data (response : str) : result (list dict) :=
  all_lines <- split response nl ;;
  let lines :=
    map strip
      (filter (fun line => truthy (strip line) && str_in bar line) all_lines) in
  for_each lines parse_response_step [].

(** Lines 128-150: the frame made of [data], with the constructor of line
    150 as [Pd.from_records]. *)
Definition parse_response (response : str) : result Pd.DataFrame :=
  data <- parse_response_data response ;;
  Ok (Pd.from_records data).

(** Lines 128-150 with the constructor of line 150 as
    [Pd.from_records_utf8]: the same function under a pandas that encodes
    the cells.  Nothing in [parse_response] catches what the constructor
    raises. *)
Definition parse_response_utf8 (response : str) : result Pd.DataFrame :=
  data <- parse_response_data response ;;
  Pd.from_records_utf8 data.

(** ** The coverage summary of the results page *)

(** Line 210: [coverage_counts = results[key_coverage].value_counts()] *)
Definition coverage_counts (results : Pd.DataFrame) : result Pd.Series :=
  col <- Pd.column results key_coverage ;;
  Ok (Pd.value_counts col).

(** The three metrics of the results page (lines 210-214), in the order they
    are computed: the counts first, then [len(results)] and the two
    [get]s with default 0. *)
Definition summary_metrics (results : Pd.DataFrame)
  : result (nat * nat * nat) :=
  counts <- coverage_counts results ;;
  Ok (Pd.len results, Pd.get counts label_full 0, Pd.get counts label_none 0).

(** ** The Streamlit session, the submit handler and the results page *)

Record SessionState := {
  processed : bool;
  results : option Pd.DataFrame;
  interview_text : str;
  outline_questions : list str;
  deepseek_api_key : str
}.

(** What a run shows to the user or sends out, in order. *)
Inductive event :=
| StError (msg : str)
| StWarning (msg : str)
| StInfo (msg : str)
| RequestsPost (api_key prompt : str)
| StRerun.

Record World := {
  session_state : SessionState;
  trace : list event
}.

(** Script code: it reads and writes the world and may raise. *)
Definition App (A : Type) : Type := World -> result A * World.

Definition ret {A} (a : A) : App A := fun w => (Ok a, w).

Definition abind {A B} (m : App A) (k : A -> App B) : App B :=
  fun w =>
    match m w with
    | (Ok a, w') => k a w'
    | (Raise e, w') => (Raise e, w')
    end.

Definition lift {A} (r : result A) : App A := fun w => (r, w).

Definition emit (ev : event) : App unit :=
  fun w => (Ok tt, {| session_state := session_state w;
                      trace := trace w ++ [ev] |}).

Definition read_state : App SessionState := fun w => (Ok (session_state w), w).

Definition modify (f : SessionState -> SessionState) : App unit :=
  fun w => (Ok tt, {| session_state := f (session_state w);
                      trace := trace w |}).

Notation "x <~ e ;; k" := (abind e (fun x => k))
  (at level 61, e at next level, right associativity).
Notation "e ;;; k" := (abind e (fun _ => k))
  (at level 61, right associativity).

Definition set_interview_text (t : str) (s : SessionState) : SessionState :=
  {| processed := processed s; results := results s; interview_text := t;
     outline_questions := outline_questions s;
     deepseek_api_key := deepseek_api_key s |}.

Definition set_outline_questions (q : list str) (s : SessionState)
  : SessionState :=
  {| processed := processed s; results := results s;
     interview_text := interview_text s; outline_questions := q;
     deepseek_api_key := deepseek_api_key s |}.

Definition set_results (r : option Pd.DataFrame) (s : SessionState)
  : SessionState :=
  {| processed := processed s; results := r;
     interview_text := interview_text s;
     outline_questions := outline_questions s;
     deepseek_api_key := deepseek_api_key s |}.

Definition set_processed (b : bool) (s : SessionState) : SessionState :=
  {| processed := b; results := results s;
     interview_text := interview_text s;
     outline_questions := outline_questions s;
     deepseek_api_key := deepseek_api_key s |}.

(** An uploaded file: its name and its bytes. *)
Record UploadedFile := {
  name : str;
  getvalue : list N
}.

(** The reply of the chat-completion endpoint: the status, the body text and
    what [response.json()['choices'][0]['message']['content']] evaluates
    to when the content is a string, or what it raises.  A reply whose
    content is JSON null or another non-string value is outside this
    record. *)
Record Response := {
  status_code : N;
  text : str;
  content : result str
}.

Definition ext_pdf : str := [0x2E; 0x70; 0x64; 0x66]%N.
Definition ext_docx : str := [0x2E; 0x64; 0x6F; 0x63; 0x78]%N.
Definition ext_txt : str := [0x2E; 0x74; 0x78; 0x74]%N.

(** The texts of [st.error], [st.warning] and [st.info]: "文件处理错误: ",
    "请上传访谈记录和大纲文件", "请先在侧边栏输入DeepSeek API密钥",
    "正在使用DeepSeek API分析访谈内容，这可能需要一些时间...",
    "DeepSeek API错误: ", "API请求异常: " and " - ". *)
Definition msg_file_error : str :=
  [0x6587; 0x4EF6; 0x5904; 0x7406; 0x9519; 0x8BEF; 0x3A; 0x20]%N.
Definition msg_upload_both : str :=
  [0x8BF7; 0x4E0A; 0x4F20; 0x8BBF; 0x8C08; 0x8BB0; 0x5F55; 0x548C; 0x5927;
   0x7EB2; 0x6587; 0x4EF6]%N.
Definition msg_need_key : str :=
  [0x8BF7; 0x5148; 0x5728; 0x4FA7; 0x8FB9; 0x680F; 0x8F93; 0x5165; 0x44; 0x65;
   0x65; 0x70; 0x53; 0x65; 0x65; 0x6B; 0x20; 0x41; 0x50; 0x49; 0x5BC6;
   0x94A5]%N.
Definition msg_analyzing : str :=
  [0x6B63; 0x5728; 0x4F7F; 0x7528; 0x44; 0x65; 0x65; 0x70; 0x53; 0x65; 0x65;
   0x6B; 0x20; 0x41; 0x50; 0x49; 0x5206; 0x6790; 0x8BBF; 0x8C08; 0x5185;
   0x5BB9; 0xFF0C; 0x8FD9; 0x53EF; 0x80FD; 0x9700; 0x8981; 0x4E00; 0x4E9B;
   0x65F6; 0x95F4; 0x2E; 0x2E; 0x2E]%N.
Definition msg_api_error : str :=
  [0x44; 0x65; 0x65; 0x70; 0x53; 0x65; 0x65; 0x6B; 0x20; 0x41; 0x50; 0x49;
   0x9519; 0x8BEF; 0x3A; 0x20]%N.
Definition msg_api_exception : str :=
  [0x41; 0x50; 0x49; 0x8BF7; 0x6C42; 0x5F02; 0x5E38; 0x3A; 0x20]%N.
Definition msg_dash : str := [0x20; 0x2D; 0x20]%N.

Section Script.

(** The collaborators of the script.  Each reader stands for the library
    call of one branch of [extract_text_from_file] on the file's bytes:
    the text of every page, the text of every paragraph, the decoded
    file. *)
Variable pdf_pages : list N -> result (list str).
Variable docx_paragraphs : list N -> result (list str).
Variable read_utf8 : list N -> result str.
(** [str(e)] and [str(n)]. *)
Variable str_of_exn : exn -> str.
Variable str_of_int : N -> str.
(** The f-string of [analyze_with_deepseek]. *)
Variable format_prompt : str -> list str -> str.
(** [requests.post] to the endpoint, by credential and prompt. *)
Variable requests_post : str -> str -> result Response.

(** The [try] block of [extract_text_from_file] (lines 41-50); [text] starts
    empty.  The temporary file the bytes go through is left out: writing it
    (lines 37-39) and unlinking it (line 54), both outside the [try], are
    taken to succeed. *)
Definition extract_text_body (file : UploadedFile) : result str :=
  if endswith (name file) ext_pdf then
    pages <- pdf_pages (getvalue file) ;;
    Ok (join nl (filter truthy pages))
  else if endswith (name file) ext_docx then
    paras <- docx_paragraphs (getvalue file) ;;
    Ok (join nl (filter truthy paras))
  else if endswith (name file) ext_txt then
    read_utf8 (getvalue file)
  else Ok [].

(** Lines 32-56: the [except] clause shows the error and the function
    returns [text], still empty. *)
Definition extract_text_from_file (file : UploadedFile) : App str :=
  match extract_text_body file with
  | Ok text => ret text
  | Raise e => emit (StError (msg_file_error ++ str_of_exn e)) ;;; ret []
  end.

(** The text [extract_text_from_file] returns for a file and the messages
    it shows. *)
Definition extracted_text (file : UploadedFile) : str :=
  match extract_text_body file with
  | Ok text => text
  | Raise _ => []
  end.

Definition extraction_messages (file : UploadedFile) : list event :=
  match extract_text_body file with
  | Ok _ => []
  | Raise e => [StError (msg_file_error ++ str_of_exn e)]
  end.

(** Lines 64-126.  The [try] covers the post and the reading of the reply. *)
Definition analyze_with_deepseek (interview : str) (questions : list str)
  : App (option str) :=
  s <~ read_state ;;
  let api_key := deepseek_api_key s in
  if negb (truthy api_key) then
    emit (StError msg_need_key) ;;; ret None
  else
    let prompt := format_prompt interview questions in
    emit (RequestsPost api_key prompt) ;;;
    match requests_post api_key prompt with
    | Ok response =>
        if (status_code response =? 200)%N then
          match content response with
          | Ok c => ret (Some c)
          | Raise e =>
              emit (StError (msg_api_exception ++ str_of_exn e)) ;;; ret None
          end
        else
          emit (StError (msg_api_error ++ str_of_int (status_code response)
                         ++ msg_dash ++ text response)) ;;;
          ret None
    | Raise e =>
        emit (StError (msg_api_exception ++ str_of_exn e)) ;;; ret None
    end.

(** What [analyze_with_deepseek] returns for an outcome of the post, and the
    messages it shows after the post. *)
Definition remote_reply (outcome : result Response) : option str :=
  match outcome with
  | Ok response =>
      if (status_code response =? 200)%N then
        match content response with
        | Ok c => Some c
        | Raise _ => None
        end
      else None
  | Raise _ => None
  end.

Definition remote_messages (outcome : result Response) : list event :=
  match outcome with
  | Ok response =>
      if (status_code response =? 200)%N then
        match content response with
        | Ok _ => []
        | Raise e => [StError (msg_api_exception ++ str_of_exn e)]
        end
      else
        [StError (msg_api_error ++ str_of_int (status_code response)
                  ++ msg_dash ++ text response)]
  | Raise e => [StError (msg_api_exception ++ str_of_exn e)]
  end.

(** The [if submitted:] block of the upload form (lines 179-203). *)
Definition on_submit (interview_file outline_file : option UploadedFile)
  : App unit :=
  match interview_file, outline_file with
  | Some interview, Some outline =>
      s <~ read_state ;;
      if negb (truthy (deepseek_api_key s)) then
        emit (StWarning msg_need_key)
      else
        t <~ extract_text_from_file interview ;;
        modify (set_interview_text t) ;;;
        outline_text <~ extract_text_from_file outline ;;
        qs <~ lift (extract_questions_from_outline outline_text) ;;
        modify (set_outline_questions qs) ;;;
        emit (StInfo msg_analyzing) ;;;
        s' <~ read_state ;;
        response <~ analyze_with_deepseek (interview_text s')
                      (outline_questions s') ;;
        match response with
        | Some r =>
            if truthy r then
              df <~ lift (parse_response r) ;;
              modify (set_results (Some df)) ;;;
              modify (set_processed true) ;;;
              emit StRerun
            else ret tt
        | None => ret tt
        end
  | _, _ => emit (StWarning msg_upload_both)
  end.

End Script.

(** The metrics block of the results page (lines 206-214), behind its guard
    [processed and results is not None]; [None] when the page is not
    shown. *)
Definition results_page (s : SessionState)
  : result (option (nat * nat * nat)) :=
  if processed s then
    match results s with
    | Some r => m <- summary_metrics r ;; Ok (Some m)
    | None => Ok None
    end
  else Ok None.

(** The body of the restart button (lines 260-265). *)
Definition on_restart : App unit :=
  modify (set_processed false) ;;;
  modify (set_results None) ;;;
  modify (set_interview_text []) ;;;
  modify (set_outline_questions []) ;;;
  emit StRerun.

Definition is_post (ev : event) : bool :=
  match ev with
  | RequestsPost _ _ => true
  | _ => false
  end.

(** The session as the script initialises it, with the credential typed in
    the sidebar. *)
Definition initial_session (api_key : str) : SessionState :=
  {| processed := false; results := None; interview_text := [];
     outline_questions := []; deepseek_api_key := api_key |}.

(** ** Definitions used to state the properties *)

(** An ASCII literal as a [str]. *)
Fixpoint lit (s : String.string) : str :=
  match s with
  | String.EmptyString => []
  | String.String c t => Ascii.N_of_ascii c :: lit t
  end.
Arguments lit s%_string.

Definition NL : char := 0x0A%N.
Definition BAR : char := 0x7C%N.

(** Occurrences of one code point: [s.count(c)] and [c in s]. *)
Definition count_char (c : char) (s : str) : nat := count_occ N.eq_dec s c.
Definition has_char (c : char) (s : str) : bool := existsb (N.eqb c) s.

(** Splitting on one code point, field by field: what [split] returns for a
    separator of length one ([split_single]). *)
Fixpoint split_char (c : char) (s : str) : list str :=
  match s with
  | [] => [[]]
  | x :: s' =>
      if N.eqb c x then [] :: split_char c s'
      else match split_char c s' with
           | h :: t => (x :: h) :: t
           | [] => [[x]]
           end
  end.

(** The lines of a reply and the trimmed fields of one line. *)
Definition reply_lines (reply : str) : list str := split_char NL reply.
Definition fields (line : str) : list str :=
  map strip (split_char BAR (strip line)).

(** The records one line of the reply contributes. *)
Definition line_records (line : str) : list dict :=
  if truthy (strip line) && has_char BAR line then
    match fields line with
    | q :: s :: c :: f :: _ => [coverage_record q s c f]
    | [q; s; c] => [coverage_record q s c followup_placeholder]
    | _ => []
    end
  else [].

(** The reading of the reply format by delimiter count: a line counts when
    it is non-empty after trimming and holds at least two delimiters, and its
    record takes the first three fields and the fourth or the placeholder. *)
Definition qualifies (line : str) : bool :=
  truthy (strip line) && (2 <=? count_char BAR line).

Definition record_of_line (line : str) : dict :=
  let p := fields line in
  coverage_record (nth 0 p []) (nth 1 p []) (nth 2 p [])
    (nth 3 p followup_placeholder).

(** The four-letter ASCII word "none". *)
Definition none_literal : str := [0x6E; 0x6F; 0x6E; 0x65]%N.

Definition whitespace_free (s : str) : Prop :=
  forallb (fun c => negb (isspace c)) s = true.

(** A dict made by [parse_response]. *)
Definition is_coverage_record (d : dict) : Prop :=
  exists q s c f, d = coverage_record q s c f.

(** The cells of the row a record gives, in column order. *)
Definition record_row (d : dict) : list Pd.cell :=
  map (dict_get d) [key_question; key_summary; key_coverage; key_followup].

(** Records of a report whose coverage text is exactly [label]. *)
Definition count_label (label : str) (data : list dict) : nat :=
  length
    (filter (fun d => match dict_get d key_coverage with
                      | Some c => str_eqb c label
                      | None => false
                      end) data).

(** ** A sample run: a readable transcript and an outline that cannot be
    opened *)

Definition sample_pdf_pages (_ : list N) : result (list str) :=
  Ok [lit "We talked about goals."].

Definition sample_docx_paragraphs (_ : list N) : result (list str) :=
  Raise (Exception (lit "File is not a zip file")).

Definition sample_read_utf8 (bytes : list N) : result str := Ok bytes.

Definition sample_str_of_exn (e : exn) : str :=
  match e with
  | ValueError m => m
  | Exception m => m
  | KeyError k => k
  | IndexError => lit "list index out of range"
  | UnicodeEncodeError => lit "surrogates not allowed"
  end.

Definition sample_str_of_int (n : N) : str :=
  lit (DecimalString.NilZero.string_of_uint (N.to_uint n)).

Definition sample_format_prompt (interview : str) (questions : list str)
  : str :=
  interview ++ nl ++ join nl questions.

Definition sample_requests_post (_ _ : str) : result Response :=
  Ok {| status_code := 200; text := [];
        content := Ok (lit "Q1 | goals | ok | ask why") |}.

Definition sample_interview : UploadedFile :=
  {| name := lit "talk.pdf"; getvalue := [37; 80; 68; 70]%N |}.

Definition sample_outline : UploadedFile :=
  {| name := lit "outline.docx"; getvalue := [0; 1; 2]%N |}.

Definition sample_world : World :=
  {| session_state := initial_session (lit "sk-test"); trace := [] |}.

Definition sample_submit : result unit * World :=
  on_submit sample_pdf_pages sample_docx_paragraphs sample_read_utf8
    sample_str_of_exn sample_str_of_int sample_format_prompt
    sample_requests_post (Some sample_interview) (Some sample_outline)
    sample_world.

(** A second run: both files open, and the model answers without a table. *)

Definition sample_docx_outline (_ : list N) : result (list str) :=
  Ok [lit "What are your goals?"; lit ""; lit "What went wrong?"].

Definition sample_requests_post_prose (_ _ : str) : result Response :=
  Ok {| status_code := 200; text := [];
        content := Ok (lit "I could not find any answers.") |}.

Definition sample_submit_prose : result unit * World :=
  on_submit sample_pdf_pages sample_docx_outline sample_read_utf8
    sample_str_of_exn sample_str_of_int sample_format_prompt
    sample_requests_post_prose (Some sample_interview) (Some sample_outline)
    sample_world.

(** Further sample data: a file with an upper-case extension, a reply with
    two record lines, an endpoint that refuses the credential and one that
    answers with an empty text. *)

Definition sample_upper_case : UploadedFile :=
  {| name := lit "TALK.PDF"; getvalue := [37; 80; 68; 70]%N |}.

Definition sample_reply : str :=
  join nl [lit "Here is the table:";
           lit "Q1 | goals | " ++ label_full ++ lit " | ask why";
           lit "";
           lit "Q2 |  | " ++ label_none].

Definition sample_requests_post_refused (_ _ : str) : result Response :=
  Ok {| status_code := 401; text := lit "unauthorized";
        content := Raise (KeyError (lit "choices")) |}.

Definition sample_requests_post_empty (_ _ : str) : result Response :=
  Ok {| status_code := 200; text := []; content := Ok [] |}.

Definition sample_questions : list str :=
  [lit "What are your goals?"; lit "What went wrong?"].

Definition sample_submit_with
  (post : str -> str -> result Response) : result unit * World :=
  on_submit sample_pdf_pages sample_docx_outline sample_read_utf8
    sample_str_of_exn sample_str_of_int sample_format_prompt post
    (Some sample_interview) (Some sample_outline) sample_world.

Definition sample_requests_post_table (_ _ : str) : result Response :=
  Ok {| status_code := 200; text := []; content := Ok sample_reply |}.


(** ** Strings: splitting, trimming, joining *)

Lemma startswith_nil (s : str) : startswith s [] = true.
Proof. destruct s; reflexivity. Qed.

Lemma split_char_not_nil (c : char) (s : str) : split_char c s <> [].
Proof.
  destruct s as [|x s]; simpl; [discriminate|].
  destruct (N.eqb c x); [discriminate|].
  destruct (split_char c s); discriminate.
Qed.

Lemma split_scan_single (c : char) (s cur : str) :
  split_scan [c] s 0 cur =
  match split_char c s with
  | h :: t => (rev cur ++ h) :: t
  | [] => [rev cur]
  end.
Proof.
  revert cur; induction s as [|x s IH]; intros cur; simpl.
  - now rewrite app_nil_r.
  - rewrite startswith_nil, andb_true_r.
    destruct (N.eqb c x).
    + rewrite app_nil_r. f_equal. rewrite IH. simpl.
      destruct (split_char c s) eqn:E; [now apply split_char_not_nil in E|].
      reflexivity.
    + rewrite IH. destruct (split_char c s) as [|h t]; simpl.
      * reflexivity.
      * now rewrite <- app_assoc.
Qed.

Lemma split_single (c : char) (s : str) : split s [c] = Ok (split_char c s).
Proof.
  unfold split. rewrite split_scan_single. simpl.
  destruct (split_char c s) eqn:E; [now apply split_char_not_nil in E|].
  reflexivity.
Qed.

Lemma str_in_single (c : char) (s : str) : str_in [c] s = has_char c s.
Proof.
  induction s as [|x s IH]; simpl; [reflexivity|].
  now rewrite startswith_nil, andb_true_r, IH.
Qed.

Lemma split_char_app (c : char) (a b : str) :
  split_char c (a ++ c :: b) = split_char c a ++ split_char c b.
Proof.
  induction a as [|x a IH]; simpl.
  - now rewrite N.eqb_refl.
  - destruct (N.eqb c x); [now rewrite IH|].
    rewrite IH.
    destruct (split_char c a) eqn:E; [now apply split_char_not_nil in E|].
    reflexivity.
Qed.

Lemma split_char_absent (c : char) (s : str) :
  has_char c s = false -> split_char c s = [s].
Proof.
  induction s as [|x s IH]; simpl; [reflexivity|].
  intros H. apply orb_false_iff in H as [H1 H2].
  now rewrite H1, (IH H2).
Qed.

Lemma length_split_char (c : char) (s : str) :
  length (split_char c s) = S (count_char c s).
Proof.
  unfold count_char. induction s as [|x s IH]; simpl; [reflexivity|].
  destruct (N.eq_dec x c) as [->|Hne].
  - now rewrite N.eqb_refl; simpl; rewrite IH.
  - destruct (N.eqb_spec c x) as [->|_]; [contradiction|].
    destruct (split_char c s); simpl in *; [discriminate|assumption].
Qed.

Lemma has_char_count (c : char) (s : str) :
  has_char c s = (1 <=? count_char c s).
Proof.
  unfold count_char, has_char. induction s as [|x s IH]; simpl; [reflexivity|].
  destruct (N.eq_dec x c) as [->|Hne].
  - now rewrite N.eqb_refl.
  - destruct (N.eqb_spec c x) as [->|_]; [contradiction|]. exact IH.
Qed.

Lemma count_char_app (c : char) (a b : str) :
  count_char c (a ++ b) = count_char c a + count_char c b.
Proof. apply count_occ_app. Qed.

Lemma count_char_rev (c : char) (s : str) :
  count_char c (rev s) = count_char c s.
Proof. apply count_occ_rev. Qed.

Lemma count_char_lstrip (c : char) (s : str) :
  isspace c = false -> count_char c (lstrip s) = count_char c s.
Proof.
  intros Hc. unfold count_char. induction s as [|x s IH]; simpl; [reflexivity|].
  destruct (isspace x) eqn:Hx; [|reflexivity].
  destruct (N.eq_dec x c) as [->|_]; [congruence|exact IH].
Qed.

Lemma count_char_strip (c : char) (s : str) :
  isspace c = false -> count_char c (strip s) = count_char c s.
Proof.
  intros Hc. unfold strip, rstrip.
  now rewrite count_char_rev, count_char_lstrip, count_char_rev,
    count_char_lstrip.
Qed.

Lemma has_char_strip (c : char) (s : str) :
  isspace c = false -> has_char c (strip s) = has_char c s.
Proof. intros Hc. now rewrite !has_char_count, count_char_strip. Qed.

Lemma lstrip_clean (s : str) : whitespace_free s -> lstrip s = s.
Proof.
  unfold whitespace_free. destruct s as [|x s]; simpl; [reflexivity|].
  intros H. apply andb_true_iff in H as [H _].
  now destruct (isspace x).
Qed.

Lemma whitespace_free_rev (s : str) : whitespace_free s -> whitespace_free (rev s).
Proof.
  unfold whitespace_free. rewrite !forallb_forall.
  intros H c Hc. apply H. now apply in_rev.
Qed.

Lemma strip_clean (s : str) : whitespace_free s -> strip s = s.
Proof.
  intros H. unfold strip, rstrip.
  rewrite (lstrip_clean s H), (lstrip_clean _ (whitespace_free_rev s H)).
  apply rev_involutive.
Qed.

Lemma whitespace_free_no_char (c : char) (s : str) :
  isspace c = true -> whitespace_free s -> has_char c s = false.
Proof.
  unfold whitespace_free, has_char. intros Hc.
  induction s as [|x s IH]; simpl; [reflexivity|].
  intros H. apply andb_true_iff in H as [Hx Hs].
  rewrite (IH Hs), orb_false_r.
  destruct (N.eqb_spec c x) as [->|_]; [|reflexivity].
  now rewrite Hc in Hx.
Qed.

Lemma join_cons (c : char) (x : str) (xs : list str) :
  xs <> [] -> join [c] (x :: xs) = x ++ c :: join [c] xs.
Proof. destruct xs; [congruence|reflexivity]. Qed.

Lemma split_char_join (c : char) (xs : list str) :
  xs <> [] -> Forall (fun x => has_char c x = false) xs ->
  split_char c (join [c] xs) = xs.
Proof.
  induction xs as [|x xs IH]; [congruence|].
  intros _ H. inversion H as [|? ? Hx Hxs]; subst.
  destruct xs as [|y ys].
  - simpl. now apply split_char_absent.
  - rewrite join_cons by discriminate.
    rewrite split_char_app, (split_char_absent _ _ Hx), IH by (discriminate || assumption).
    reflexivity.
Qed.

(** ** The reply parser, line by line *)

Lemma isspace_BAR : isspace BAR = false.
Proof. reflexivity. Qed.

Lemma isspace_NL : isspace NL = true.
Proof. reflexivity. Qed.

Lemma length_fields (line : str) :
  length (fields line) = S (count_char BAR line).
Proof.
  unfold fields.
  now rewrite length_map, length_split_char, (count_char_strip _ _ isspace_BAR).
Qed.

Lemma truthy_of_count (c : char) (s : str) :
  1 <= count_char c s -> truthy s = true.
Proof. destruct s; simpl; [lia|reflexivity]. Qed.

(** A line with at least two fields passes the filter of [parse_response]. *)
Lemma kept_of_fields (line : str) :
  2 <= length (fields line) ->
  truthy (strip line) && has_char BAR line = true.
Proof.
  rewrite length_fields. intros H.
  rewrite has_char_count. apply andb_true_iff; split.
  - apply (truthy_of_count BAR).
    rewrite (count_char_strip _ _ isspace_BAR). lia.
  - apply Nat.leb_le. lia.
Qed.

Lemma parse_response_step_fields (data : list dict) (line : str) :
  parse_response_step data (strip line) =
  Ok (data ++ match fields line with
              | q :: s :: c :: f :: _ => [coverage_record q s c f]
              | [q; s; c] => [coverage_record q s c followup_placeholder]
              | _ => []
              end).
Proof.
  unfold parse_response_step. change bar with [BAR].
  rewrite split_single. cbn [bind]. fold (fields line).
  destruct (fields line) as [|q [|s [|c [|f rest]]]]; cbn;
    rewrite ?app_nil_r; reflexivity.
Qed.

Lemma for_each_lines (ls : list str) (data : list dict) :
  for_each
    (map strip
       (filter (fun line => truthy (strip line) && str_in bar line) ls))
    parse_response_step data
  = Ok (data ++ flat_map line_records ls).
Proof.
  revert data. induction ls as [|l ls IH]; intros data; simpl.
  - now rewrite app_nil_r.
  - unfold line_records at 1. change bar with [BAR]. rewrite str_in_single.
    destruct (truthy (strip l) && has_char BAR l); simpl.
    + rewrite parse_response_step_fields. cbn [bind].
      change [BAR] with bar. rewrite IH. now rewrite <- app_assoc.
    + change [BAR] with bar. apply IH.
Qed.

(** [parse_response] never raises: its data is what the lines contribute,
    in order. *)
Lemma parse_response_data_lines (reply : str) :
  parse_response_data reply = Ok (flat_map line_records (reply_lines reply)).
Proof.
  unfold parse_response_data. change nl with [NL].
  rewrite split_single. cbn [bind]. apply for_each_lines.
Qed.

Lemma parse_response_frame (reply : str) :
  parse_response reply =
  Ok (Pd.from_records (flat_map line_records (reply_lines reply))).
Proof.
  unfold parse_response. now rewrite parse_response_data_lines.
Qed.

Lemma records_app_nl (a b : str) :
  flat_map line_records (reply_lines (a ++ NL :: b)) =
  flat_map line_records (reply_lines a) ++
  flat_map line_records (reply_lines b).
Proof. unfold reply_lines. now rewrite split_char_app, flat_map_app. Qed.

Lemma records_join_app (xs ys : list str) :
  flat_map line_records (reply_lines (join nl (xs ++ ys))) =
  flat_map line_records (reply_lines (join nl xs)) ++
  flat_map line_records (reply_lines (join nl ys)).
Proof.
  change nl with [NL].
  induction xs as [|x xs IH]; [reflexivity|].
  destruct xs as [|x' xs].
  - destruct ys as [|y ys].
    + simpl. now rewrite !app_nil_r.
    + change ([x] ++ y :: ys) with (x :: y :: ys).
      rewrite join_cons by discriminate. apply records_app_nl.
  - change ((x :: x' :: xs) ++ ys) with (x :: (x' :: xs) ++ ys).
    rewrite !join_cons by discriminate.
    rewrite !records_app_nl, IH. now rewrite app_assoc.
Qed.

Lemma records_single_line (line : str) :
  has_char NL line = false ->
  flat_map line_records (reply_lines line) = line_records line.
Proof.
  intros H. unfold reply_lines. rewrite (split_char_absent _ _ H). simpl.
  apply app_nil_r.
Qed.

(** A line of a reply contributes its records between those of the lines
    before it and those of the lines after it. *)
Lemma parse_response_context (before after : list str) (line : str) :
  has_char NL line = false ->
  exists d1 d2,
    parse_response_data (join nl before) = Ok d1 /\
    parse_response_data (join nl after) = Ok d2 /\
    parse_response (join nl (before ++ line :: after)) =
      Ok (Pd.from_records (d1 ++ line_records line ++ d2)).
Proof.
  intros H.
  exists (flat_map line_records (reply_lines (join nl before))),
         (flat_map line_records (reply_lines (join nl after))).
  rewrite !parse_response_data_lines, parse_response_frame.
  repeat split.
  change (line :: after) with ([line] ++ after).
  rewrite !records_join_app. simpl join.
  now rewrite (records_single_line _ H).
Qed.

Lemma line_records_qualifies (line : str) :
  line_records line = if qualifies line then [record_of_line line] else [].
Proof.
  unfold line_records, qualifies, record_of_line.
  pose proof (length_fields line) as HL.
  rewrite has_char_count.
  destruct (fields line) as [|q [|s [|c [|f rest]]]] eqn:E; simpl in HL.
  - discriminate.
  - replace (count_char BAR line) with 0 by lia. simpl.
    now rewrite !andb_false_r.
  - replace (count_char BAR line) with 1 by lia. simpl.
    rewrite andb_false_r. now destruct (truthy (strip line)).
  - replace (count_char BAR line) with 2 by lia. simpl.
    now destruct (truthy (strip line)).
  - replace (count_char BAR line) with (S (S (S (length rest)))) by lia.
    simpl. now destruct (truthy (strip line)).
Qed.

Lemma flat_map_line_records (ls : list str) :
  flat_map line_records ls = map record_of_line (filter qualifies ls).
Proof.
  induction ls as [|l ls IH]; simpl; [reflexivity|].
  rewrite line_records_qualifies, IH. now destruct (qualifies l).
Qed.

Lemma line_records_four (line q s c f : str) (extra : list str) :
  fields line = q :: s :: c :: f :: extra ->
  line_records line = [coverage_record q s c f].
Proof.
  intros E. unfold line_records.
  rewrite kept_of_fields by (rewrite E; simpl; lia). now rewrite E.
Qed.

Lemma line_records_three (line q s c : str) :
  fields line = [q; s; c] ->
  line_records line = [coverage_record q s c followup_placeholder].
Proof.
  intros E. unfold line_records.
  rewrite kept_of_fields by (rewrite E; simpl; lia). now rewrite E.
Qed.

Lemma line_records_few (line : str) :
  length (fields line) <= 2 -> line_records line = [].
Proof.
  intros H. unfold line_records.
  destruct (truthy (strip line) && has_char BAR line); [|reflexivity].
  destruct (fields line) as [|q [|s [|c [|f rest]]]]; simpl in H;
    (reflexivity || lia).
Qed.

(** ** Field-count dispatch of the reply parser *)

(** C2, as amended: a reply line with exactly three trimmed fields yields
    one record (question, summary, coverage) whose follow-up is the
    placeholder of the program, the one-character string U+65E0. *)
Theorem parse_three_fields
  (before after : list str) (line q s c : str) :
  has_char NL line = false ->
  fields line = [q; s; c] ->
  exists d1 d2,
    parse_response_data (join nl before) = Ok d1 /\
    parse_response_data (join nl after) = Ok d2 /\
    parse_response (join nl (before ++ line :: after)) =
      Ok (Pd.from_records
            (d1 ++ coverage_record q s c followup_placeholder :: d2)) /\
    dict_get (coverage_record q s c followup_placeholder) key_followup =
      Some [0x65E0%N].
Proof.
  intros Hnl E.
  destruct (parse_response_context before after line Hnl)
    as (d1 & d2 & H1 & H2 & H).
  exists d1, d2. repeat split; try assumption.
  now rewrite (line_records_three line q s c E) in H.
Qed.

Lemma parse_three_fields_witness :
  has_char NL (lit "Q1 | summary text | " ++ label_full) = false /\
  fields (lit "Q1 | summary text | " ++ label_full) =
    [lit "Q1"; lit "summary text"; label_full] /\
  exists d1 d2,
    parse_response_data (join nl []) = Ok d1 /\
    parse_response_data (join nl [lit "thanks"]) = Ok d2 /\
    parse_response
      (join nl ([] ++ (lit "Q1 | summary text | " ++ label_full) ::
                [lit "thanks"])) =
      Ok (Pd.from_records
            (d1 ++ coverage_record (lit "Q1") (lit "summary text") label_full
                     followup_placeholder :: d2)) /\
    dict_get (coverage_record (lit "Q1") (lit "summary text") label_full
                followup_placeholder) key_followup = Some [0x65E0%N].
Proof.
  split; [reflexivity|]. split; [reflexivity|].
  apply (parse_three_fields [] [lit "thanks"]
           (lit "Q1 | summary text | " ++ label_full)
           (lit "Q1") (lit "summary text") label_full); reflexivity.
Defined.

(** C2, as stated, fails: on the three-field line of the specification's own
    example the follow-up is U+65E0, which is not the word "none". *)
Lemma parse_three_fields_not_none :
  fields (lit "Q1 | summary text | " ++ label_full) =
    [lit "Q1"; lit "summary text"; label_full] /\
  parse_response_data (lit "Q1 | summary text | " ++ label_full) =
    Ok [coverage_record (lit "Q1") (lit "summary text") label_full
          [0x65E0%N]] /\
  parse_response (lit "Q1 | summary text | " ++ label_full) <>
    Ok (Pd.from_records
          [coverage_record (lit "Q1") (lit "summary text") label_full
             none_literal]).
Proof.
  split; [reflexivity|]. split; [reflexivity|].
  vm_compute. intros H. discriminate H.
Qed.

(** C3: a reply line that is empty after trimming, has no delimiter, has
    exactly one delimiter (whatever its second field), or has at most two
    fields, contributes no record, and the parser does not raise. *)
Theorem parse_short_line_dropped
  (before after : list str) (line : str) :
  has_char NL line = false ->
  strip line = [] \/ has_char BAR line = false \/ count_char BAR line = 1 \/
    length (fields line) <= 2 ->
  exists d1 d2,
    parse_response_data (join nl before) = Ok d1 /\
    parse_response_data (join nl after) = Ok d2 /\
    parse_response (join nl (before ++ line :: after)) =
      Ok (Pd.from_records (d1 ++ d2)).
Proof.
  intros Hnl Hcase.
  destruct (parse_response_context before after line Hnl)
    as (d1 & d2 & H1 & H2 & H).
  exists d1, d2. repeat split; try assumption.
  assert (Hfew : length (fields line) <= 2).
  { rewrite length_fields.
    destruct Hcase as [E | [E | [E | E]]].
    - rewrite <- (count_char_strip BAR line isspace_BAR), E. simpl. lia.
    - rewrite has_char_count in E. apply Nat.leb_gt in E. lia.
    - lia.
    - now rewrite length_fields in E. }
  now rewrite (line_records_few line Hfew) in H.
Qed.

Lemma parse_short_line_dropped_witness :
  has_char NL (lit "Q1 |") = false /\
  count_char BAR (lit "Q1 |") = 1 /\
  fields (lit "Q1 |") = [lit "Q1"; lit ""] /\
  exists d1 d2,
    parse_response_data (join nl [lit "Q0 | s | ok"]) = Ok d1 /\
    parse_response_data (join nl [lit "Q2 | s | ok"]) = Ok d2 /\
    parse_response
      (join nl ([lit "Q0 | s | ok"] ++ lit "Q1 |" :: [lit "Q2 | s | ok"])) =
      Ok (Pd.from_records (d1 ++ d2)).
Proof.
  split; [reflexivity|]. split; [reflexivity|]. split; [reflexivity|].
  apply (parse_short_line_dropped [lit "Q0 | s | ok"] [lit "Q2 | s | ok"]
           (lit "Q1 |")); [reflexivity|].
  right. right. left. reflexivity.
Defined.

(** ** The report as a whole *)

Lemma len_from_records (data : list dict) :
  Pd.len (Pd.from_records data) = length data.
Proof. unfold Pd.len, Pd.from_records. simpl. apply length_map. Qed.

(** C8: the report holds one record for each line that is non-empty after
    trimming and has at least two delimiters, in the order of the lines; its
    length is the number of such lines, and it is empty for the empty
    reply. *)
Theorem parse_one_record_per_qualifying_line (reply : str) :
  let data := map record_of_line (filter qualifies (reply_lines reply)) in
  parse_response_data reply = Ok data /\
  parse_response reply = Ok (Pd.from_records data) /\
  Pd.len (Pd.from_records data) =
    length (filter qualifies (reply_lines reply)) /\
  (forall line,
      (2 <=? count_char BAR line) = (3 <=? length (fields line))) /\
  parse_response [] = Ok (Pd.from_records []).
Proof.
  cbv zeta.
  rewrite parse_response_data_lines, parse_response_frame,
    flat_map_line_records, len_from_records, length_map.
  repeat split.
  intros line. now rewrite length_fields.
Qed.

Lemma extract_questions_lines (text : str) :
  extract_questions_from_outline text =
  Ok (map strip (filter (fun line => truthy (strip line))
                   (split_char NL text))).
Proof.
  unfold extract_questions_from_outline. change nl with [NL].
  now rewrite split_single.
Qed.

Lemma strip_filter_clean (qs : list str) :
  Forall (fun q => q <> [] /\ whitespace_free q) qs ->
  map strip (filter (fun line => truthy (strip line)) qs) = qs.
Proof.
  induction 1 as [|q qs [Hne Hws] _ IH]; simpl; [reflexivity|].
  rewrite (strip_clean q Hws).
  destruct q as [|x q]; [congruence|]. simpl.
  rewrite (strip_clean (x :: q) Hws). now rewrite IH.
Qed.

(** C7: splitting the newline-join of non-empty, whitespace-free questions
    gives the questions back. *)
Theorem split_join_clean_questions (questions : list str) :
  Forall (fun q => q <> [] /\ whitespace_free q) questions ->
  extract_questions_from_outline (join nl questions) = Ok questions.
Proof.
  intros H. rewrite extract_questions_lines. f_equal.
  destruct questions as [|q qs]; [reflexivity|].
  change nl with [NL]. rewrite split_char_join.
  - now apply strip_filter_clean.
  - discriminate.
  - eapply Forall_impl; [|exact H]. intros a [_ Ha].
    now apply whitespace_free_no_char.
Qed.

Lemma split_join_clean_questions_witness :
  Forall (fun q => q <> [] /\ whitespace_free q)
    [lit "background?"; lit "goals?"; lit "background?"] /\
  extract_questions_from_outline
    (join nl [lit "background?"; lit "goals?"; lit "background?"]) =
  Ok [lit "background?"; lit "goals?"; lit "background?"].
Proof.
  assert (H : Forall (fun q => q <> [] /\ whitespace_free q)
                [lit "background?"; lit "goals?"; lit "background?"]).
  { repeat constructor; discriminate. }
  split; [exact H|].
  exact (split_join_clean_questions
           [lit "background?"; lit "goals?"; lit "background?"] H).
Defined.

(** ** What every record holds *)

Lemma line_records_shape (line : str) :
  Forall is_coverage_record (line_records line).
Proof.
  rewrite line_records_qualifies.
  destruct (qualifies line); constructor; [|constructor].
  unfold record_of_line. now eexists _, _, _, _.
Qed.

Lemma flat_map_records_shape (ls : list str) :
  Forall is_coverage_record (flat_map line_records ls).
Proof.
  induction ls as [|l ls IH]; simpl; [constructor|].
  apply Forall_app; split; [apply line_records_shape|exact IH].
Qed.

(** C4, as amended: every record of every report has a summary field, a
    coverage field and a follow-up field, each holding a string; the
    follow-up is present even when the line has no fourth field.  The
    coverage text may be empty. *)
Theorem records_have_all_fields (reply : str) :
  exists data,
    parse_response_data reply = Ok data /\
    parse_response reply = Ok (Pd.from_records data) /\
    Forall (fun d =>
              (exists summary, dict_get d key_summary = Some summary) /\
              (exists coverage, dict_get d key_coverage = Some coverage) /\
              (exists followup, dict_get d key_followup = Some followup))
      data.
Proof.
  exists (flat_map line_records (reply_lines reply)).
  split; [apply parse_response_data_lines|].
  split; [apply parse_response_frame|].
  eapply Forall_impl; [|apply flat_map_records_shape].
  intros d (q & s & c & f & ->).
  repeat split; eexists; reflexivity.
Qed.

(** C4, as stated, fails: a line whose third field is blank yields a record
    with empty coverage text. *)
Lemma record_with_empty_coverage :
  fields (lit "Q1 | summary |") = [lit "Q1"; lit "summary"; []] /\
  parse_response_data (lit "Q1 | summary |") =
    Ok [coverage_record (lit "Q1") (lit "summary") [] followup_placeholder] /\
  dict_get (coverage_record (lit "Q1") (lit "summary") []
              followup_placeholder) key_coverage = Some [] /\
  ~ (forall reply data d,
        parse_response_data reply = Ok data -> In d data ->
        exists coverage,
          dict_get d key_coverage = Some coverage /\ coverage <> []).
Proof.
  repeat split. intros H.
  destruct (H (lit "Q1 | summary |") _ _ eq_refl (or_introl eq_refl))
    as (c & Hc & Hne).
  apply Hne. now inversion Hc.
Qed.

(** ** The coverage summary *)

Lemma str_eqb_eq (a b : str) : str_eqb a b = true <-> a = b.
Proof.
  revert b. induction a as [|x a IH]; intros [|y b]; simpl;
    try (split; (reflexivity || discriminate)).
  rewrite andb_true_iff, N.eqb_eq, IH.
  split; [intros [-> ->]; reflexivity | intros H; now inversion H].
Qed.

Lemma str_eqb_trans_l (a b c : str) :
  str_eqb a b = true -> str_eqb a c = str_eqb b c.
Proof. intros H. apply str_eqb_eq in H. now subst. Qed.

Lemma get_bump (v k : str) (s : Pd.Series) :
  Pd.get (Pd.bump v s) k 0 =
  if str_eqb v k then S (Pd.get s k 0) else Pd.get s k 0.
Proof.
  induction s as [|[k' n] t IH]; simpl.
  - now destruct (str_eqb v k).
  - destruct (str_eqb k' v) eqn:E; simpl.
    + rewrite <- (str_eqb_trans_l k' v k E). now destruct (str_eqb k' k).
    + rewrite IH. destruct (str_eqb k' k) eqn:E'; [|reflexivity].
      destruct (str_eqb v k) eqn:E''; [|reflexivity].
      apply str_eqb_eq in E', E''. subst.
      assert (str_eqb k k = true) by now apply str_eqb_eq.
      congruence.
Qed.

Lemma get_value_counts (label : str) (data : list dict) :
  Pd.get (Pd.value_counts (map (fun d => dict_get d key_coverage) data))
    label 0 = count_label label data.
Proof.
  unfold count_label. induction data as [|d data IH]; simpl; [reflexivity|].
  destruct (dict_get d key_coverage) as [c|]; [|exact IH].
  rewrite get_bump, IH. now destruct (str_eqb c label).
Qed.

Lemma record_columns_stable (data : list dict) :
  Forall is_coverage_record data ->
  fold_left (fun seen d => Pd.add_keys seen (map fst d)) data
    [key_question; key_summary; key_coverage; key_followup] =
  [key_question; key_summary; key_coverage; key_followup].
Proof.
  induction 1 as [|d data (q & s & c & f & ->) _ IH]; [reflexivity|exact IH].
Qed.

Lemma record_columns_nonempty (data : list dict) :
  data <> [] -> Forall is_coverage_record data ->
  Pd.record_columns data =
  [key_question; key_summary; key_coverage; key_followup].
Proof.
  destruct data as [|d data]; [congruence|]. intros _ H.
  inversion H as [|? ? (q & s & c & f & ->) Hrest]; subst.
  apply (record_columns_stable data Hrest).
Qed.

(** On a report with at least one record the three metrics are the report
    length and the numbers of records whose coverage text is exactly the
    label, by code-point equality; other labels count toward neither. *)
Lemma summary_metrics_nonempty (data : list dict) :
  data <> [] -> Forall is_coverage_record data ->
  summary_metrics (Pd.from_records data) =
  Ok (length data, count_label label_full data, count_label label_none data).
Proof.
  intros Hne H. unfold summary_metrics, coverage_counts, Pd.column.
  rewrite len_from_records. unfold Pd.from_records. cbn [Pd.columns Pd.rows].
  rewrite (record_columns_nonempty data Hne H).
  change (Pd.index_of key_coverage
            [key_question; key_summary; key_coverage; key_followup])
    with (Some 2).
  cbn [bind]. rewrite map_map.
  change (fun x : dict =>
            nth 2 (map (dict_get x)
                     [key_question; key_summary; key_coverage; key_followup])
              None)
    with (fun d : dict => dict_get d key_coverage).
  now rewrite !get_value_counts.
Qed.

(** C5 fails on the empty report: a reply without any record line parses to
    a frame that has no columns, and reading the coverage column of that
    frame raises [KeyError] before any metric is computed. *)
Theorem summary_of_empty_report_raises :
  parse_response (lit "I could not find any answers.") =
    Ok (Pd.from_records []) /\
  Pd.from_records [] = {| Pd.columns := []; Pd.rows := [] |} /\
  summary_metrics (Pd.from_records []) = Raise (KeyError key_coverage) /\
  processed (session_state (snd sample_submit_prose)) = true /\
  results (session_state (snd sample_submit_prose)) =
    Some (Pd.from_records []) /\
  results_page (session_state (snd sample_submit_prose)) =
    Raise (KeyError key_coverage).
Proof. repeat split. Qed.

Example summary_metrics_example :
  summary_metrics
    (Pd.from_records
       [coverage_record (lit "Q1") (lit "s") label_full (lit "f");
        coverage_record (lit "Q2") (lit "s") label_full (lit "f");
        coverage_record (lit "Q3") (lit "s") [0x90E8; 0x5206]%N (lit "f");
        coverage_record (lit "Q4") (lit "s") label_none (lit "f")]) =
  Ok (4, 2, 1).
Proof. reflexivity. Qed.

(** ** The submit handler on an extraction failure *)

Section SubmitHandler.

Variable pdf_pages : list N -> result (list str).
Variable docx_paragraphs : list N -> result (list str).
Variable read_utf8 : list N -> result str.
Variable str_of_exn : exn -> str.
Variable str_of_int : N -> str.
Variable format_prompt : str -> list str -> str.
Variable requests_post : str -> str -> result Response.

Local Abbreviation body :=
  (extract_text_body pdf_pages docx_paragraphs read_utf8).
Local Abbreviation text_of :=
  (extracted_text pdf_pages docx_paragraphs read_utf8).
Local Abbreviation messages :=
  (extraction_messages pdf_pages docx_paragraphs read_utf8 str_of_exn).
Local Abbreviation submit :=
  (on_submit pdf_pages docx_paragraphs read_utf8 str_of_exn str_of_int
     format_prompt requests_post).

(** [extract_text_from_file] never raises: it shows its messages and
    returns the text, empty after a failure. *)
Lemma extract_text_from_file_run (file : UploadedFile) (w : World) :
  extract_text_from_file pdf_pages docx_paragraphs read_utf8 str_of_exn
    file w =
  (Ok (text_of file),
   {| session_state := session_state w;
      trace := trace w ++ messages file |}).
Proof.
  unfold extract_text_from_file, extracted_text, extraction_messages.
  destruct w as [ss tr].
  destruct (extract_text_body pdf_pages docx_paragraphs read_utf8 file);
    cbn; [now rewrite app_nil_r | reflexivity].
Qed.

(** With a credential, [analyze_with_deepseek] posts the prompt whatever
    the texts are, and leaves the session as it is. *)
Lemma analyze_with_deepseek_run
  (interview : str) (questions : list str) (w : World) :
  truthy (deepseek_api_key (session_state w)) = true ->
  exists reply shown,
    analyze_with_deepseek str_of_exn str_of_int format_prompt requests_post
      interview questions w =
    (Ok reply,
     {| session_state := session_state w;
        trace := trace w ++
                 RequestsPost (deepseek_api_key (session_state w))
                   (format_prompt interview questions) :: shown |}).
Proof.
  intros Hkey. destruct w as [ss tr]. cbn in Hkey.
  unfold analyze_with_deepseek, abind, read_state, emit, ret. cbn.
  rewrite Hkey. cbn.
  destruct (requests_post (deepseek_api_key ss)
              (format_prompt interview questions)) as [resp|e]; cbn.
  - destruct (status_code resp =? 200)%N; cbn.
    + destruct (content resp) as [c|e]; cbn.
      * now exists (Some c), [].
      * eexists None, [_]. now rewrite <- app_assoc.
    + eexists None, [_]. now rewrite <- app_assoc.
  - eexists None, [_]. now rewrite <- app_assoc.
Qed.

(** With both files and a credential the handler runs to the remote call:
    it stores the extracted text and questions and posts the prompt. *)
Lemma on_submit_run (interview outline : UploadedFile) (w : World) :
  truthy (deepseek_api_key (session_state w)) = true ->
  exists session shown,
    submit (Some interview) (Some outline) w =
    (Ok tt,
     {| session_state := session;
        trace :=
          trace w ++ messages interview ++ messages outline ++
          StInfo msg_analyzing ::
          RequestsPost (deepseek_api_key (session_state w))
            (format_prompt (text_of interview)
               (map strip (filter (fun line => truthy (strip line))
                             (split_char NL (text_of outline))))) ::
          shown |}) /\
    interview_text session = text_of interview /\
    outline_questions session =
      map strip (filter (fun line => truthy (strip line))
                   (split_char NL (text_of outline))).
Proof.
  intros Hkey.
  unfold on_submit, abind, read_state.
  cbn -[extract_text_from_file extract_questions_from_outline
        analyze_with_deepseek parse_response].
  rewrite Hkey.
  cbn -[extract_text_from_file extract_questions_from_outline
        analyze_with_deepseek parse_response].
  rewrite extract_text_from_file_run.
  cbn -[extract_text_from_file extract_questions_from_outline
        analyze_with_deepseek parse_response].
  rewrite extract_text_from_file_run.
  unfold lift. rewrite extract_questions_lines.
  cbn -[extract_text_from_file extract_questions_from_outline
        analyze_with_deepseek parse_response].
  match goal with
  | |- context [analyze_with_deepseek _ _ _ _ ?i ?q ?w0] =>
      destruct (analyze_with_deepseek_run i q w0 Hkey)
        as (reply & shown & Hrun)
  end.
  rewrite Hrun. clear Hrun.
  cbn -[extract_text_from_file extract_questions_from_outline
        analyze_with_deepseek parse_response].
  destruct reply as [r|]; [destruct (truthy r)|].
  - rewrite parse_response_frame. unfold emit, ret. cbn.
    rewrite <- !app_assoc. cbn [app].
    eexists _, _. repeat split.
  - unfold ret. rewrite <- !app_assoc. cbn [app].
    eexists _, _. repeat split.
  - unfold ret. rewrite <- !app_assoc. cbn [app].
    eexists _, _. repeat split.
Qed.

(** C6, as amended: when reading an uploaded file raises, the message of
    the failure is shown and the file's text is taken as empty; the run
    goes on: with both files and a credential it stores the extracted text
    and questions in the session and then posts the prompt to the model. *)
Theorem extraction_failure_does_not_halt
  (interview outline : UploadedFile) (w : World) (e : exn) :
  truthy (deepseek_api_key (session_state w)) = true ->
  body interview = Raise e \/ body outline = Raise e ->
  exists questions shown,
    extract_questions_from_outline (text_of outline) = Ok questions /\
    fst (submit (Some interview) (Some outline) w) = Ok tt /\
    trace (snd (submit (Some interview) (Some outline) w)) =
      trace w ++ messages interview ++ messages outline ++
      StInfo msg_analyzing ::
      RequestsPost (deepseek_api_key (session_state w))
        (format_prompt (text_of interview) questions) :: shown /\
    In (StError (msg_file_error ++ str_of_exn e))
      (messages interview ++ messages outline) /\
    interview_text (session_state (snd (submit (Some interview)
                                          (Some outline) w))) =
      text_of interview /\
    outline_questions (session_state (snd (submit (Some interview)
                                             (Some outline) w))) =
      questions.
Proof.
  intros Hkey Hfail.
  destruct (on_submit_run interview outline w Hkey)
    as (session & shown & Hrun & Htext & Hqs).
  exists (map strip (filter (fun line => truthy (strip line))
                       (split_char NL (text_of outline)))), shown.
  rewrite Hrun. cbn [fst snd trace session_state].
  repeat split; try assumption.
  - apply extract_questions_lines.
  - apply in_or_app. unfold extraction_messages.
    destruct Hfail as [H|H]; [left|right]; rewrite H; now left.
Qed.

(** X19: a file whose name ends in none of the three extensions, which are
    compared case-sensitively, yields the empty text, shows no message and
    leaves the session as it is. *)
Lemma extract_text_other_extension (file : UploadedFile) (w : World) :
  endswith (name file) ext_pdf = false ->
  endswith (name file) ext_docx = false ->
  endswith (name file) ext_txt = false ->
  extract_text_from_file pdf_pages docx_paragraphs read_utf8 str_of_exn
    file w = (Ok [], w).
Proof.
  intros H1 H2 H3. unfold extract_text_from_file, extract_text_body.
  now rewrite H1, H2, H3.
Qed.

End SubmitHandler.

Lemma extraction_failure_does_not_halt_witness :
  truthy (deepseek_api_key (session_state sample_world)) = true /\
  extract_text_body sample_pdf_pages sample_docx_paragraphs sample_read_utf8
    sample_outline = Raise (Exception (lit "File is not a zip file")) /\
  exists questions shown,
    extract_questions_from_outline
      (extracted_text sample_pdf_pages sample_docx_paragraphs
         sample_read_utf8 sample_outline) = Ok questions /\
    fst sample_submit = Ok tt /\
    trace (snd sample_submit) =
      trace sample_world ++
      extraction_messages sample_pdf_pages sample_docx_paragraphs
        sample_read_utf8 sample_str_of_exn sample_interview ++
      extraction_messages sample_pdf_pages sample_docx_paragraphs
        sample_read_utf8 sample_str_of_exn sample_outline ++
      StInfo msg_analyzing ::
      RequestsPost (deepseek_api_key (session_state sample_world))
        (sample_format_prompt
           (extracted_text sample_pdf_pages sample_docx_paragraphs
              sample_read_utf8 sample_interview) questions) :: shown /\
    In (StError (msg_file_error ++
                 sample_str_of_exn (Exception (lit "File is not a zip file"))))
      (extraction_messages sample_pdf_pages sample_docx_paragraphs
         sample_read_utf8 sample_str_of_exn sample_interview ++
       extraction_messages sample_pdf_pages sample_docx_paragraphs
         sample_read_utf8 sample_str_of_exn sample_outline) /\
    interview_text (session_state (snd sample_submit)) =
      extracted_text sample_pdf_pages sample_docx_paragraphs
        sample_read_utf8 sample_interview /\
    outline_questions (session_state (snd sample_submit)) = questions.
Proof.
  split; [reflexivity|]. split; [reflexivity|].
  apply (extraction_failure_does_not_halt
           sample_pdf_pages sample_docx_paragraphs sample_read_utf8
           sample_str_of_exn sample_str_of_int sample_format_prompt
           sample_requests_post sample_interview sample_outline sample_world
           (Exception (lit "File is not a zip file"))).
  - reflexivity.
  - right. reflexivity.
Defined.

(** C6, as stated, fails: the outline cannot be opened, the error is shown,
    and the run still posts to the model, stores the transcript text and the
    parsed table, and marks the session processed. *)
Lemma extraction_failure_still_calls_model :
  extract_text_body sample_pdf_pages sample_docx_paragraphs sample_read_utf8
    sample_outline = Raise (Exception (lit "File is not a zip file")) /\
  trace (snd sample_submit) =
    [ StError (msg_file_error ++ lit "File is not a zip file");
      StInfo msg_analyzing;
      RequestsPost (lit "sk-test")
        (sample_format_prompt (lit "We talked about goals.") []);
      StRerun ] /\
  interview_text (session_state (snd sample_submit)) =
    lit "We talked about goals." /\
  results (session_state (snd sample_submit)) =
    Some (Pd.from_records
            [coverage_record (lit "Q1") (lit "goals") (lit "ok")
               (lit "ask why")]) /\
  processed (session_state (snd sample_submit)) = true /\
  session_state (snd sample_submit) <> session_state sample_world.
Proof.
  repeat split. vm_compute. discriminate.
Qed.

(** ** More on trimming and splitting *)

Lemma lstrip_split (s : str) :
  exists ws, s = ws ++ lstrip s /\ forallb isspace ws = true.
Proof.
  induction s as [|x s (ws & E & H)]; [now exists []|]. simpl.
  destruct (isspace x) eqn:Hx.
  - exists (x :: ws). simpl. rewrite Hx, H. now rewrite <- E.
  - now exists [].
Qed.

Lemma rstrip_split (s : str) :
  exists ws, s = rstrip s ++ ws /\ forallb isspace ws = true.
Proof.
  destruct (lstrip_split (rev s)) as (ws & E & H).
  exists (rev ws). split.
  - unfold rstrip. rewrite <- rev_app_distr, <- E. now rewrite rev_involutive.
  - rewrite forallb_forall in *. intros c Hc. apply H. now apply in_rev.
Qed.

Lemma strip_split (s : str) :
  exists w1 w2,
    s = w1 ++ strip s ++ w2 /\
    forallb isspace w1 = true /\ forallb isspace w2 = true.
Proof.
  destruct (lstrip_split s) as (w1 & E1 & H1).
  destruct (rstrip_split (lstrip s)) as (w2 & E2 & H2).
  exists w1, w2. unfold strip. now rewrite <- E2, <- E1.
Qed.

Lemma lstrip_head (s : str) (c : char) (t : str) :
  lstrip s = c :: t -> isspace c = false.
Proof.
  induction s as [|x s IH]; simpl; [discriminate|].
  destruct (isspace x) eqn:Hx; [exact IH|].
  intros E. inversion E; subst. exact Hx.
Qed.

Lemma lstrip_fixed (s : str) :
  match s with [] => True | c :: _ => isspace c = false end -> lstrip s = s.
Proof. destruct s as [|c s]; simpl; [reflexivity|]. now intros ->. Qed.

Lemma lstrip_idem (s : str) : lstrip (lstrip s) = lstrip s.
Proof.
  apply lstrip_fixed. destruct (lstrip s) as [|c t] eqn:E; [exact I|].
  exact (lstrip_head s c t E).
Qed.

Lemma rstrip_idem (s : str) : rstrip (rstrip s) = rstrip s.
Proof. unfold rstrip. now rewrite rev_involutive, lstrip_idem. Qed.

(** Trimming on the right keeps a left-trimmed string left-trimmed. *)
Lemma lstrip_rstrip (s : str) : lstrip s = s -> lstrip (rstrip s) = rstrip s.
Proof.
  intros Hs. apply lstrip_fixed.
  destruct (rstrip_split s) as (ws & E & Hws).
  destruct (rstrip s) as [|c t]; [exact I|].
  rewrite E in Hs. simpl in Hs.
  destruct (isspace c) eqn:Hc; [|reflexivity].
  exfalso.
  destruct (lstrip_split (t ++ ws)) as (w & Ew & _).
  apply (f_equal (@length char)) in Hs. rewrite Ew in Hs at 2.
  simpl in Hs. rewrite length_app in Hs. lia.
Qed.

Lemma strip_idem (s : str) : strip (strip s) = strip s.
Proof.
  unfold strip.
  rewrite (lstrip_rstrip (lstrip s) (lstrip_idem s)). apply rstrip_idem.
Qed.

Lemma has_char_app (c : char) (a b : str) :
  has_char c (a ++ b) = has_char c a || has_char c b.
Proof. apply existsb_app. Qed.

Lemma has_char_strip_absent (c : char) (s : str) :
  has_char c s = false -> has_char c (strip s) = false.
Proof.
  destruct (strip_split s) as (w1 & w2 & E & _). intros H.
  rewrite E, !has_char_app in H.
  apply orb_false_iff in H as [_ H]. now apply orb_false_iff in H as [H _].
Qed.

Lemma split_char_pieces (c : char) (s : str) :
  Forall (fun x => has_char c x = false) (split_char c s).
Proof.
  induction s as [|x s IH]; simpl; [now repeat constructor|].
  destruct (N.eqb c x) eqn:E; [now constructor|].
  destruct (split_char c s) as [|h t]; [now repeat constructor; simpl; rewrite E|].
  inversion IH; subst. constructor; [|assumption].
  simpl. now rewrite E.
Qed.

Lemma split_char_keeps_absent (c d : char) (s : str) :
  has_char d s = false ->
  Forall (fun x => has_char d x = false) (split_char c s).
Proof.
  induction s as [|x s IH]; simpl; [now repeat constructor|].
  intros H. apply orb_false_iff in H as [Hx Hs]. specialize (IH Hs).
  destruct (N.eqb c x); [now constructor|].
  destruct (split_char c s) as [|h t];
    [now repeat constructor; simpl; rewrite Hx|].
  inversion IH; subst. constructor; [|assumption].
  simpl. now rewrite Hx.
Qed.

Lemma split_char_blank (c : char) (s : str) :
  forallb isspace s = true ->
  Forall (fun x => forallb isspace x = true) (split_char c s).
Proof.
  induction s as [|x s IH]; simpl; [now repeat constructor|].
  intros H. apply andb_true_iff in H as [Hx Hs]. specialize (IH Hs).
  destruct (N.eqb c x); [now constructor|].
  destruct (split_char c s) as [|h t];
    [now repeat constructor; simpl; rewrite Hx|].
  inversion IH; subst. constructor; [|assumption].
  simpl. now rewrite Hx.
Qed.

Lemma lstrip_blank (s : str) : forallb isspace s = true -> lstrip s = [].
Proof.
  induction s as [|x s IH]; simpl; [reflexivity|].
  intros H. apply andb_true_iff in H as [Hx Hs]. now rewrite Hx, IH.
Qed.

Lemma strip_blank (s : str) : forallb isspace s = true -> strip s = [].
Proof. intros H. unfold strip. now rewrite (lstrip_blank s H). Qed.

Lemma count_char_lines (c d : char) (s : str) :
  c <> d ->
  count_char c s = list_sum (map (count_char c) (split_char d s)).
Proof.
  intros Hcd. unfold count_char.
  induction s as [|x s IH]; simpl; [reflexivity|].
  destruct (N.eqb_spec d x) as [<-|Hdx].
  - destruct (N.eq_dec d c) as [E|_]; [congruence|]. exact IH.
  - destruct (split_char d s) as [|h t]; simpl in *.
    + destruct (N.eq_dec x c); lia.
    + destruct (N.eq_dec x c); lia.
Qed.

(** ** More on the outline splitter *)

Lemma outline_lines_clean (ls : list str) :
  Forall (fun l => has_char NL l = false) ls ->
  Forall (fun q => q <> [] /\ strip q = q /\ has_char NL q = false)
    (map strip (filter (fun line => truthy (strip line)) ls)).
Proof.
  induction 1 as [|l ls Hl _ IH]; simpl; [constructor|].
  destruct (truthy (strip l)) eqn:E; [|exact IH].
  simpl. constructor; [|exact IH].
  repeat split.
  - intros H. now rewrite H in E.
  - apply strip_idem.
  - now apply has_char_strip_absent.
Qed.

Lemma strip_filter_trimmed (qs : list str) :
  Forall (fun q => q <> [] /\ strip q = q /\ has_char NL q = false) qs ->
  map strip (filter (fun line => truthy (strip line)) qs) = qs.
Proof.
  induction 1 as [|q qs (Hne & Hq & _) _ IH]; simpl; [reflexivity|].
  rewrite Hq. destruct q as [|x q]; [congruence|]. simpl.
  now rewrite Hq, IH.
Qed.

Lemma split_join_trimmed (qs : list str) :
  Forall (fun q => q <> [] /\ strip q = q /\ has_char NL q = false) qs ->
  extract_questions_from_outline (join nl qs) = Ok qs.
Proof.
  intros H. rewrite extract_questions_lines. f_equal.
  destruct qs as [|q qs]; [reflexivity|].
  change nl with [NL]. rewrite split_char_join.
  - now apply strip_filter_trimmed.
  - discriminate.
  - eapply Forall_impl; [|exact H]. now intros a (_ & _ & Ha).
Qed.

(** X1: every question the outline splitter returns is non-empty, has no
    leading or trailing whitespace and holds no newline. *)
Theorem outline_questions_clean (text : str) :
  exists questions,
    extract_questions_from_outline text = Ok questions /\
    Forall (fun q => q <> [] /\ strip q = q /\ has_char NL q = false)
      questions.
Proof.
  eexists. split; [apply extract_questions_lines|].
  apply outline_lines_clean, split_char_pieces.
Qed.

(** X2: the outline splitter is idempotent through the newline-join: joining
    the questions of any text and splitting again gives the same
    questions, inner spaces included. *)
Theorem outline_split_idempotent (text : str) :
  exists questions,
    extract_questions_from_outline text = Ok questions /\
    extract_questions_from_outline (join nl questions) = Ok questions.
Proof.
  eexists. split; [apply extract_questions_lines|].
  apply split_join_trimmed, outline_lines_clean, split_char_pieces.
Qed.

(** X3: a text made of whitespace only, the empty text included, has no
    questions. *)
Theorem outline_blank_text (text : str) :
  forallb isspace text = true ->
  extract_questions_from_outline text = Ok [].
Proof.
  intros H. rewrite extract_questions_lines. f_equal.
  pose proof (split_char_blank NL text H) as HB.
  induction HB as [|l ls Hl _ IH]; simpl; [reflexivity|].
  now rewrite (strip_blank l Hl).
Qed.

Lemma outline_blank_text_witness :
  forallb isspace (join nl [lit "  "; [0x09; 0x3000]%N; lit ""; lit " "])
    = true /\
  extract_questions_from_outline
    (join nl [lit "  "; [0x09; 0x3000]%N; lit ""; lit " "]) = Ok [].
Proof.
  split; [reflexivity|].
  apply (outline_blank_text
           (join nl [lit "  "; [0x09; 0x3000]%N; lit ""; lit " "])).
  reflexivity.
Defined.

(** X4: the questions of two texts joined by a newline are the questions of
    the first followed by those of the second. *)
Theorem outline_split_app (a b : str) :
  exists qa qb,
    extract_questions_from_outline a = Ok qa /\
    extract_questions_from_outline b = Ok qb /\
    extract_questions_from_outline (a ++ nl ++ b) = Ok (qa ++ qb).
Proof.
  eexists _, _. rewrite !extract_questions_lines. repeat split.
  change (a ++ nl ++ b) with (a ++ NL :: b).
  now rewrite split_char_app, filter_app, map_app.
Qed.

(** ** More on the reply parser *)

Lemma nth_Forall {A} (P : A -> Prop) (l : list A) (d : A) (i : nat) :
  Forall P l -> P d -> P (nth i l d).
Proof.
  intros Hl Hd. destruct (nth_in_or_default i l d) as [H| ->]; [|exact Hd].
  rewrite Forall_forall in Hl. now apply Hl.
Qed.

Lemma fields_clean (line : str) :
  has_char NL line = false ->
  Forall (fun v => strip v = v /\ has_char BAR v = false /\
                   has_char NL v = false) (fields line).
Proof.
  intros Hnl. unfold fields. rewrite Forall_map.
  pose proof (split_char_pieces BAR (strip line)) as H1.
  pose proof (split_char_keeps_absent BAR NL (strip line)
                (has_char_strip_absent NL line Hnl)) as H2.
  rewrite Forall_forall in *. intros x Hx. repeat split.
  - apply strip_idem.
  - apply has_char_strip_absent. now apply H1.
  - apply has_char_strip_absent. now apply H2.
Qed.

Lemma record_of_line_clean (line : str) :
  has_char NL line = false ->
  Forall (fun v => strip v = v /\ has_char BAR v = false /\
                   has_char NL v = false) (map snd (record_of_line line)).
Proof.
  intros Hnl. pose proof (fields_clean line Hnl) as HF.
  unfold record_of_line, coverage_record. cbn [map snd].
  repeat constructor;
    try (apply (nth_Forall _ _ _ _ HF); repeat split; reflexivity).
Qed.

(** X5: every value stored in a record is trimmed and holds neither the
    delimiter nor a newline. *)
Theorem record_values_clean (reply : str) :
  exists data,
    parse_response_data reply = Ok data /\
    parse_response reply = Ok (Pd.from_records data) /\
    Forall (fun d =>
              Forall (fun v => strip v = v /\ has_char BAR v = false /\
                               has_char NL v = false) (map snd d)) data.
Proof.
  eexists. split; [apply parse_response_data_lines|].
  split; [apply parse_response_frame|].
  rewrite flat_map_line_records, Forall_map.
  pose proof (split_char_pieces NL reply) as HL. fold (reply_lines reply) in HL.
  induction HL as [|l ls Hl _ IH]; simpl; [constructor|].
  destruct (qualifies l); [|exact IH].
  constructor; [now apply record_of_line_clean | exact IH].
Qed.

(** X6: the records of two replies joined by a newline are the records of
    the first followed by those of the second. *)
Theorem parse_response_app (a b : str) :
  exists da db,
    parse_response_data a = Ok da /\
    parse_response_data b = Ok db /\
    parse_response_data (a ++ nl ++ b) = Ok (da ++ db) /\
    parse_response (a ++ nl ++ b) = Ok (Pd.from_records (da ++ db)).
Proof.
  eexists _, _.
  rewrite !parse_response_data_lines, parse_response_frame.
  change (a ++ nl ++ b) with (a ++ NL :: b).
  rewrite records_app_nl. repeat split.
Qed.

Lemma qualifying_lines_bound (ls : list str) :
  2 * length (filter qualifies ls) <= list_sum (map (count_char BAR) ls).
Proof.
  induction ls as [|l ls IH]; simpl; [lia|].
  destruct (qualifies l) eqn:E; simpl; [|lia].
  unfold qualifies in E. apply andb_true_iff in E as [_ E].
  apply Nat.leb_le in E. lia.
Qed.

(** X7: a report has at most half as many records as the reply has
    delimiters; a reply with fewer than two delimiters gives none. *)
Theorem report_length_bound (reply : str) :
  exists data,
    parse_response_data reply = Ok data /\
    2 * length data <= count_char BAR reply /\
    (count_char BAR reply < 2 -> data = []).
Proof.
  eexists. split; [apply parse_response_data_lines|].
  rewrite flat_map_line_records.
  assert (H : 2 * length (map record_of_line
                            (filter qualifies (reply_lines reply)))
              <= count_char BAR reply).
  { rewrite length_map, (count_char_lines BAR NL reply) by discriminate.
    apply qualifying_lines_bound. }
  split; [exact H|].
  intros Hlt.
  destruct (map record_of_line (filter qualifies (reply_lines reply)));
    [reflexivity | simpl in H; lia].
Qed.

Lemma rows_of_records (data : list dict) :
  Forall is_coverage_record data ->
  Forall (fun row => exists q s c f, row = [Some q; Some s; Some c; Some f])
    (map (fun d => map (dict_get d)
                     [key_question; key_summary; key_coverage; key_followup])
       data).
Proof.
  induction 1 as [|d data (q & s & c & f & ->) _ IH]; simpl; constructor.
  - now exists q, s, c, f.
  - exact IH.
Qed.

(** X8: the frame of a report either has no columns and no rows, or has
    exactly the four columns question, summary, coverage, follow-up in that
    order, and then every row holds four present cells. *)
Theorem report_frame_shape (reply : str) :
  exists df,
    parse_response reply = Ok df /\
    ((Pd.columns df = [] /\ Pd.rows df = []) \/
     (Pd.columns df =
        [key_question; key_summary; key_coverage; key_followup] /\
      Pd.rows df <> [] /\
      Forall (fun row => exists q s c f,
                  row = [Some q; Some s; Some c; Some f]) (Pd.rows df))).
Proof.
  eexists. split; [apply parse_response_frame|].
  pose proof (flat_map_records_shape (reply_lines reply)) as H.
  destruct (flat_map line_records (reply_lines reply)) as [|d data] eqn:E.
  - left. split; reflexivity.
  - right. unfold Pd.from_records. cbn [Pd.columns Pd.rows].
    rewrite (record_columns_nonempty (d :: data)) by (discriminate || exact H).
    split; [reflexivity|]. split; [discriminate|].
    now apply rows_of_records.
Qed.

Lemma count_label_disjoint (a b : str) (data : list dict) :
  a <> b -> count_label a data + count_label b data <= length data.
Proof.
  intros Hab. unfold count_label.
  induction data as [|d data IH]; simpl; [lia|].
  destruct (dict_get d key_coverage) as [c|]; [|lia].
  destruct (str_eqb c a) eqn:Ea; destruct (str_eqb c b) eqn:Eb; simpl;
    try lia.
  apply str_eqb_eq in Ea, Eb. congruence.
Qed.

Lemma count_label_lines (label : str) (ls : list str) :
  count_label label (map record_of_line ls) =
  length (filter (fun l => str_eqb (nth 2 (fields l) []) label) ls).
Proof.
  unfold count_label. induction ls as [|l ls IH]; simpl; [reflexivity|].
  change (dict_get (record_of_line l) key_coverage)
    with (Some (nth 2 (fields l) [])).
  destruct (str_eqb (nth 2 (fields l) []) label); simpl; now rewrite IH.
Qed.

(** X9: for a reply with at least one record line the three metrics are
    computed without error: the number of record lines, the number of those
    whose trimmed third field is exactly the full label, and the number whose
    third field is exactly the none label; the two counts together never
    exceed the total. *)
Theorem summary_of_parsed_reply (reply : str) :
  filter qualifies (reply_lines reply) <> [] ->
  let lines := filter qualifies (reply_lines reply) in
  let full :=
    length (filter (fun l => str_eqb (nth 2 (fields l) []) label_full)
              lines) in
  let none :=
    length (filter (fun l => str_eqb (nth 2 (fields l) []) label_none)
              lines) in
  (report <- parse_response reply ;; summary_metrics report) =
    Ok (length lines, full, none) /\
  full + none <= length lines.
Proof.
  intros Hne. cbv zeta.
  rewrite parse_response_frame, flat_map_line_records. cbn [bind].
  rewrite <- !count_label_lines. split.
  - rewrite summary_metrics_nonempty.
    + now rewrite length_map.
    + destruct (filter qualifies (reply_lines reply));
        [congruence|discriminate].
    + rewrite <- flat_map_line_records. apply flat_map_records_shape.
  - rewrite <- (length_map record_of_line).
    apply count_label_disjoint. discriminate.
Qed.

Lemma summary_of_parsed_reply_witness :
  filter qualifies (reply_lines sample_reply) <> [] /\
  (report <- parse_response sample_reply ;; summary_metrics report) =
    Ok (2, 1, 1).
Proof.
  assert (H : filter qualifies (reply_lines sample_reply) <> [])
    by (vm_compute; discriminate).
  split; [exact H|].
  exact (proj1 (summary_of_parsed_reply sample_reply H)).
Defined.

(** ** More on the remote call and the submit handler *)

Section SubmitOutcomes.

Variable pdf_pages : list N -> result (list str).
Variable docx_paragraphs : list N -> result (list str).
Variable read_utf8 : list N -> result str.
Variable str_of_exn : exn -> str.
Variable str_of_int : N -> str.
Variable format_prompt : str -> list str -> str.
Variable requests_post : str -> str -> result Response.

Local Abbreviation text_of :=
  (extracted_text pdf_pages docx_paragraphs read_utf8).
Local Abbreviation messages :=
  (extraction_messages pdf_pages docx_paragraphs read_utf8 str_of_exn).
Local Abbreviation analyze :=
  (analyze_with_deepseek str_of_exn str_of_int format_prompt requests_post).
Local Abbreviation submit :=
  (on_submit pdf_pages docx_paragraphs read_utf8 str_of_exn str_of_int
     format_prompt requests_post).
Local Abbreviation shown_after :=
  (remote_messages str_of_exn str_of_int).

Lemma analyze_with_key
  (interview : str) (questions : list str) (w : World) :
  truthy (deepseek_api_key (session_state w)) = true ->
  analyze interview questions w =
  (Ok (remote_reply
         (requests_post (deepseek_api_key (session_state w))
            (format_prompt interview questions))),
   {| session_state := session_state w;
      trace := trace w ++
               RequestsPost (deepseek_api_key (session_state w))
                 (format_prompt interview questions) ::
               shown_after
                 (requests_post (deepseek_api_key (session_state w))
                    (format_prompt interview questions)) |}).
Proof.
  intros Hkey. destruct w as [ss tr]. cbn in Hkey.
  unfold analyze_with_deepseek, abind, read_state, emit, ret,
    remote_reply, remote_messages. cbn.
  rewrite Hkey. cbn.
  destruct (requests_post (deepseek_api_key ss)
              (format_prompt interview questions)) as [resp|e]; cbn.
  - destruct (status_code resp =? 200)%N; cbn.
    + destruct (content resp) as [c|e]; cbn;
        [reflexivity | now rewrite <- app_assoc].
    + now rewrite <- app_assoc.
  - now rewrite <- app_assoc.
Qed.

Lemma analyze_without_key
  (interview : str) (questions : list str) (w : World) :
  truthy (deepseek_api_key (session_state w)) = false ->
  analyze interview questions w =
  (Ok None,
   {| session_state := session_state w;
      trace := trace w ++ [StError msg_need_key] |}).
Proof.
  intros Hkey. destruct w as [ss tr]. cbn in Hkey.
  unfold analyze_with_deepseek, abind, read_state, emit, ret. cbn.
  now rewrite Hkey.
Qed.

Lemma remote_messages_none (outcome : result Response) :
  remote_reply outcome = None ->
  exists msg, shown_after outcome = [StError msg].
Proof.
  unfold remote_reply, remote_messages.
  destruct outcome as [resp|e]; [|now eexists].
  destruct (status_code resp =? 200)%N; [|now eexists].
  destruct (content resp); [discriminate|now eexists].
Qed.

Lemma remote_messages_some (outcome : result Response) (c : str) :
  remote_reply outcome = Some c -> shown_after outcome = [].
Proof.
  unfold remote_reply, remote_messages.
  destruct outcome as [resp|e]; [|discriminate].
  destruct (status_code resp =? 200)%N; [|discriminate].
  now destruct (content resp).
Qed.

(** X10: [analyze_with_deepseek] never raises and leaves the session as it
    is.  Without a credential it shows the missing-credential error, returns
    [None] and posts nothing.  With one it posts exactly once, before
    anything else it shows: it returns the content and shows nothing more
    when the post came back with status 200 and a content that reads as a
    string; when the post raises, the status is not 200, or reading the
    content raises, it returns [None] and shows exactly one error after the
    post. *)
Theorem analyze_reply_or_error
  (interview : str) (questions : list str) (w : World) :
  let key := deepseek_api_key (session_state w) in
  let prompt := format_prompt interview questions in
  exists reply shown,
    analyze interview questions w =
      (Ok reply,
       {| session_state := session_state w; trace := trace w ++ shown |}) /\
    if truthy key then
      exists after,
        shown = RequestsPost key prompt :: after /\
        filter is_post after = [] /\
        match requests_post key prompt with
        | Ok response =>
            if (status_code response =? 200)%N then
              match content response with
              | Ok c => reply = Some c /\ after = []
              | Raise _ => reply = None /\ exists msg, after = [StError msg]
              end
            else reply = None /\ exists msg, after = [StError msg]
        | Raise _ => reply = None /\ exists msg, after = [StError msg]
        end
    else reply = None /\ shown = [StError msg_need_key].
Proof.
  cbv zeta.
  destruct (truthy (deepseek_api_key (session_state w))) eqn:Hkey.
  - rewrite (analyze_with_key interview questions w Hkey).
    eexists _, _. split; [reflexivity|].
    eexists. split; [reflexivity|].
    unfold remote_reply, remote_messages.
    destruct (requests_post _ _) as [resp|e].
    + destruct (status_code resp =? 200)%N.
      * destruct (content resp) as [c|e]; repeat split; now eexists.
      * repeat split; now eexists.
    + repeat split; now eexists.
  - rewrite (analyze_without_key interview questions w Hkey).
    eexists _, _. repeat split.
Qed.

(** With both files and a credential: the session and the trace after the
    handler, by the outcome of the post. *)
Lemma on_submit_exact (interview outline : UploadedFile) (w : World) :
  truthy (deepseek_api_key (session_state w)) = true ->
  let questions :=
    map strip (filter (fun line => truthy (strip line))
                 (split_char NL (text_of outline))) in
  let key := deepseek_api_key (session_state w) in
  let prompt := format_prompt (text_of interview) questions in
  let stored :=
    set_outline_questions questions
      (set_interview_text (text_of interview) (session_state w)) in
  submit (Some interview) (Some outline) w =
  (Ok tt,
   {| session_state :=
        match remote_reply (requests_post key prompt) with
        | Some r =>
            if truthy r then
              set_processed true
                (set_results
                   (Some (Pd.from_records
                            (flat_map line_records (reply_lines r))))
                   stored)
            else stored
        | None => stored
        end;
      trace :=
        trace w ++ messages interview ++ messages outline ++
        StInfo msg_analyzing :: RequestsPost key prompt ::
        shown_after (requests_post key prompt) ++
        match remote_reply (requests_post key prompt) with
        | Some r => if truthy r then [StRerun] else []
        | None => []
        end |}).
Proof.
  intros Hkey. cbv zeta.
  unfold on_submit, abind, read_state.
  cbn -[extract_text_from_file extract_questions_from_outline
        analyze_with_deepseek parse_response].
  rewrite Hkey.
  cbn -[extract_text_from_file extract_questions_from_outline
        analyze_with_deepseek parse_response].
  rewrite extract_text_from_file_run.
  cbn -[extract_text_from_file extract_questions_from_outline
        analyze_with_deepseek parse_response].
  rewrite extract_text_from_file_run.
  unfold lift. rewrite extract_questions_lines.
  cbn -[extract_text_from_file extract_questions_from_outline
        analyze_with_deepseek parse_response].
  rewrite analyze_with_key by exact Hkey.
  cbn -[extract_text_from_file extract_questions_from_outline
        analyze_with_deepseek parse_response remote_reply remote_messages].
  destruct (remote_reply _) as [r|]; [destruct (truthy r)|].
  - rewrite parse_response_frame. unfold emit, ret. cbn.
    rewrite <- !app_assoc. reflexivity.
  - unfold ret. rewrite <- !app_assoc, app_nil_r. reflexivity.
  - unfold ret. rewrite <- !app_assoc, app_nil_r. reflexivity.
Qed.

(** X11: without both files, or without a credential, the handler shows one
    warning and does nothing else: the session is untouched and nothing is
    posted. *)
Theorem submit_guards
  (interview outline : option UploadedFile) (w : World) :
  interview = None \/ outline = None \/
    truthy (deepseek_api_key (session_state w)) = false ->
  submit interview outline w =
  (Ok tt,
   {| session_state := session_state w;
      trace := trace w ++
               [StWarning match interview, outline with
                          | Some _, Some _ => msg_need_key
                          | _, _ => msg_upload_both
                          end] |}).
Proof.
  intros H. unfold on_submit.
  destruct interview as [i|]; [destruct outline as [o|]|]; try reflexivity.
  destruct H as [H|[H|H]]; try discriminate.
  unfold abind, read_state, emit. cbn. now rewrite H.
Qed.

(** X12: when the post fails (it raises, the status is not 200, or the reply
    cannot be read), one error message follows the post, and the session
    keeps its earlier results and processed flag: nothing is parsed and no
    rerun is asked. *)
Theorem submit_remote_failure
  (interview outline : UploadedFile) (w : World) (questions : list str) :
  truthy (deepseek_api_key (session_state w)) = true ->
  extract_questions_from_outline (text_of outline) = Ok questions ->
  remote_reply
    (requests_post (deepseek_api_key (session_state w))
       (format_prompt (text_of interview) questions)) = None ->
  exists msg,
    trace (snd (submit (Some interview) (Some outline) w)) =
      trace w ++ messages interview ++ messages outline ++
      [StInfo msg_analyzing;
       RequestsPost (deepseek_api_key (session_state w))
         (format_prompt (text_of interview) questions);
       StError msg] /\
    processed (session_state (snd (submit (Some interview) (Some outline)
                                     w))) = processed (session_state w) /\
    results (session_state (snd (submit (Some interview) (Some outline)
                                   w))) = results (session_state w).
Proof.
  intros Hkey Hq Hnone.
  rewrite extract_questions_lines in Hq. inversion Hq as [Eq]. clear Hq.
  rewrite (on_submit_exact interview outline w Hkey). cbv zeta.
  rewrite Eq, Hnone.
  destruct (remote_messages_none _ Hnone) as (msg & ->).
  exists msg. repeat split.
Qed.

(** X13: when the post succeeds with a non-empty reply, the handler stores
    the parsed frame, marks the session processed, keeps the extracted text
    and questions, and asks for a rerun as its last step. *)
Theorem submit_success
  (interview outline : UploadedFile) (w : World) (questions : list str)
  (r : str) :
  truthy (deepseek_api_key (session_state w)) = true ->
  extract_questions_from_outline (text_of outline) = Ok questions ->
  remote_reply
    (requests_post (deepseek_api_key (session_state w))
       (format_prompt (text_of interview) questions)) = Some r ->
  truthy r = true ->
  exists df,
    parse_response r = Ok df /\
    session_state (snd (submit (Some interview) (Some outline) w)) =
      set_processed true
        (set_results (Some df)
           (set_outline_questions questions
              (set_interview_text (text_of interview) (session_state w)))) /\
    trace (snd (submit (Some interview) (Some outline) w)) =
      trace w ++ messages interview ++ messages outline ++
      [StInfo msg_analyzing;
       RequestsPost (deepseek_api_key (session_state w))
         (format_prompt (text_of interview) questions);
       StRerun].
Proof.
  intros Hkey Hq Hsome Hr.
  rewrite extract_questions_lines in Hq. inversion Hq as [Eq]. clear Hq.
  rewrite (on_submit_exact interview outline w Hkey). cbv zeta.
  rewrite Eq, Hsome, Hr, (remote_messages_some _ r Hsome).
  eexists. split; [apply parse_response_frame|]. repeat split.
Qed.

(** X14: when the post succeeds with an empty reply, nothing is shown after
    the post and nothing is stored as results: the run ends silently with
    the earlier results and processed flag. *)
Theorem submit_empty_reply
  (interview outline : UploadedFile) (w : World) (questions : list str) :
  truthy (deepseek_api_key (session_state w)) = true ->
  extract_questions_from_outline (text_of outline) = Ok questions ->
  remote_reply
    (requests_post (deepseek_api_key (session_state w))
       (format_prompt (text_of interview) questions)) = Some [] ->
  trace (snd (submit (Some interview) (Some outline) w)) =
    trace w ++ messages interview ++ messages outline ++
    [StInfo msg_analyzing;
     RequestsPost (deepseek_api_key (session_state w))
       (format_prompt (text_of interview) questions)] /\
  processed (session_state (snd (submit (Some interview) (Some outline)
                                   w))) = processed (session_state w) /\
  results (session_state (snd (submit (Some interview) (Some outline)
                                 w))) = results (session_state w).
Proof.
  intros Hkey Hq Hsome.
  rewrite extract_questions_lines in Hq. inversion Hq as [Eq]. clear Hq.
  rewrite (on_submit_exact interview outline w Hkey). cbv zeta.
  rewrite Eq, Hsome, (remote_messages_some _ [] Hsome).
  repeat split.
Qed.

Lemma no_post_in_messages (file : UploadedFile) :
  filter is_post (messages file) = [].
Proof.
  unfold extraction_messages.
  now destruct (extract_text_body pdf_pages docx_paragraphs read_utf8 file).
Qed.

Lemma no_post_after (outcome : result Response) :
  filter is_post (shown_after outcome) = [].
Proof.
  unfold remote_messages. destruct outcome as [resp|e]; [|reflexivity].
  destruct (status_code resp =? 200)%N; [|reflexivity].
  now destruct (content resp).
Qed.

(** X15: in every run the handler only adds to what was shown, posts to the
    model at most once, and leaves the credential as it is. *)
Theorem submit_posts_at_most_once
  (interview outline : option UploadedFile) (w : World) :
  exists shown,
    trace (snd (submit interview outline w)) = trace w ++ shown /\
    length (filter is_post shown) <= 1 /\
    deepseek_api_key (session_state (snd (submit interview outline w))) =
      deepseek_api_key (session_state w).
Proof.
  destruct interview as [i|]; [destruct outline as [o|]|];
    try (eexists; unfold on_submit, emit; cbn; repeat split; cbn; lia).
  destruct (truthy (deepseek_api_key (session_state w))) eqn:Hkey.
  - rewrite (on_submit_exact i o w Hkey). cbv zeta. cbn [fst snd trace].
    eexists. split; [reflexivity|]. split.
    + rewrite !filter_app. cbn [filter is_post].
      rewrite !filter_app, !no_post_in_messages, no_post_after.
      destruct (remote_reply _) as [r|]; [destruct (truthy r)|]; cbn; lia.
    + cbn [session_state].
      destruct (remote_reply _) as [r|]; [destruct (truthy r)|]; reflexivity.
  - unfold on_submit, abind, read_state, emit. cbn. rewrite Hkey. cbn.
    eexists. repeat split. cbn. lia.
Qed.

(** X16: after a successful run whose reply has at least one record line,
    the results page computes its three metrics from that reply: the number
    of record lines and the numbers of those whose trimmed third field is
    exactly the full label and exactly the none label. *)
Theorem submit_then_results_page
  (interview outline : UploadedFile) (w : World) (questions : list str)
  (r : str) :
  truthy (deepseek_api_key (session_state w)) = true ->
  extract_questions_from_outline (text_of outline) = Ok questions ->
  remote_reply
    (requests_post (deepseek_api_key (session_state w))
       (format_prompt (text_of interview) questions)) = Some r ->
  filter qualifies (reply_lines r) <> [] ->
  results_page (session_state (snd (submit (Some interview) (Some outline)
                                      w))) =
  Ok (Some
        (length (filter qualifies (reply_lines r)),
         length (filter (fun l => str_eqb (nth 2 (fields l) []) label_full)
                   (filter qualifies (reply_lines r))),
         length (filter (fun l => str_eqb (nth 2 (fields l) []) label_none)
                   (filter qualifies (reply_lines r))))).
Proof.
  intros Hkey Hq Hsome Hlines.
  assert (Hr : truthy r = true).
  { destruct r; [|reflexivity]. now elim Hlines. }
  rewrite extract_questions_lines in Hq. inversion Hq as [Eq]. clear Hq.
  rewrite (on_submit_exact interview outline w Hkey). cbv zeta.
  rewrite Eq, Hsome, Hr. cbn [snd session_state].
  unfold results_page. cbn [processed results set_processed set_results].
  rewrite flat_map_line_records, summary_metrics_nonempty.
  - cbn [bind]. now rewrite length_map, !count_label_lines.
  - destruct (filter qualifies (reply_lines r)); [congruence|discriminate].
  - rewrite <- flat_map_line_records. apply flat_map_records_shape.
Qed.

(** X17: after a successful run whose non-empty reply has no record line,
    the session is marked processed with a frame that has no columns, and
    the results page raises [KeyError] on the coverage column. *)
Theorem submit_then_results_page_no_records
  (interview outline : UploadedFile) (w : World) (questions : list str)
  (r : str) :
  truthy (deepseek_api_key (session_state w)) = true ->
  extract_questions_from_outline (text_of outline) = Ok questions ->
  remote_reply
    (requests_post (deepseek_api_key (session_state w))
       (format_prompt (text_of interview) questions)) = Some r ->
  truthy r = true ->
  filter qualifies (reply_lines r) = [] ->
  processed (session_state (snd (submit (Some interview) (Some outline)
                                   w))) = true /\
  results (session_state (snd (submit (Some interview) (Some outline) w))) =
    Some {| Pd.columns := []; Pd.rows := [] |} /\
  results_page (session_state (snd (submit (Some interview) (Some outline)
                                      w))) =
    Raise (KeyError key_coverage).
Proof.
  intros Hkey Hq Hsome Hr Hlines.
  rewrite extract_questions_lines in Hq. inversion Hq as [Eq]. clear Hq.
  rewrite (on_submit_exact interview outline w Hkey). cbv zeta.
  rewrite Eq, Hsome, Hr. cbn [snd session_state].
  unfold results_page. cbn [processed results set_processed set_results].
  rewrite flat_map_line_records, Hlines. repeat split.
Qed.

End SubmitOutcomes.

Lemma submit_guards_witness :
  on_submit sample_pdf_pages sample_docx_outline sample_read_utf8
    sample_str_of_exn sample_str_of_int sample_format_prompt
    sample_requests_post None (Some sample_outline) sample_world =
  (Ok tt,
   {| session_state := session_state sample_world;
      trace := trace sample_world ++ [StWarning msg_upload_both] |}).
Proof.
  apply (submit_guards sample_pdf_pages sample_docx_outline sample_read_utf8
           sample_str_of_exn sample_str_of_int sample_format_prompt
           sample_requests_post None (Some sample_outline) sample_world).
  left. reflexivity.
Defined.

Lemma submit_remote_failure_witness :
  remote_reply
    (sample_requests_post_refused (lit "sk-test")
       (sample_format_prompt (lit "We talked about goals.")
          sample_questions)) = None /\
  exists msg,
    trace (snd (sample_submit_with sample_requests_post_refused)) =
      [StInfo msg_analyzing;
       RequestsPost (lit "sk-test")
         (sample_format_prompt (lit "We talked about goals.")
            sample_questions);
       StError msg] /\
    processed (session_state
                 (snd (sample_submit_with sample_requests_post_refused))) =
      false /\
    results (session_state
               (snd (sample_submit_with sample_requests_post_refused))) =
      None.
Proof.
  split; [reflexivity|].
  exact (submit_remote_failure sample_pdf_pages sample_docx_outline
           sample_read_utf8 sample_str_of_exn sample_str_of_int
           sample_format_prompt sample_requests_post_refused
           sample_interview sample_outline sample_world sample_questions
           eq_refl eq_refl eq_refl).
Defined.

Lemma submit_success_witness :
  remote_reply
    (sample_requests_post_table (lit "sk-test")
       (sample_format_prompt (lit "We talked about goals.")
          sample_questions)) = Some sample_reply /\
  truthy sample_reply = true /\
  exists df,
    parse_response sample_reply = Ok df /\
    session_state (snd (sample_submit_with sample_requests_post_table)) =
      {| processed := true; results := Some df;
         interview_text := lit "We talked about goals.";
         outline_questions := sample_questions;
         deepseek_api_key := lit "sk-test" |} /\
    trace (snd (sample_submit_with sample_requests_post_table)) =
      [StInfo msg_analyzing;
       RequestsPost (lit "sk-test")
         (sample_format_prompt (lit "We talked about goals.")
            sample_questions);
       StRerun].
Proof.
  split; [reflexivity|]. split; [reflexivity|].
  exact (submit_success sample_pdf_pages sample_docx_outline
           sample_read_utf8 sample_str_of_exn sample_str_of_int
           sample_format_prompt sample_requests_post_table
           sample_interview sample_outline sample_world sample_questions
           sample_reply eq_refl eq_refl eq_refl eq_refl).
Defined.

Lemma submit_empty_reply_witness :
  remote_reply
    (sample_requests_post_empty (lit "sk-test")
       (sample_format_prompt (lit "We talked about goals.")
          sample_questions)) = Some [] /\
  trace (snd (sample_submit_with sample_requests_post_empty)) =
    [StInfo msg_analyzing;
     RequestsPost (lit "sk-test")
       (sample_format_prompt (lit "We talked about goals.")
          sample_questions)] /\
  processed (session_state
               (snd (sample_submit_with sample_requests_post_empty))) =
    false /\
  results (session_state
             (snd (sample_submit_with sample_requests_post_empty))) = None.
Proof.
  split; [reflexivity|].
  exact (submit_empty_reply sample_pdf_pages sample_docx_outline
           sample_read_utf8 sample_str_of_exn sample_str_of_int
           sample_format_prompt sample_requests_post_empty
           sample_interview sample_outline sample_world sample_questions
           eq_refl eq_refl eq_refl).
Defined.

Lemma submit_then_results_page_witness :
  filter qualifies (reply_lines sample_reply) <> [] /\
  results_page
    (session_state (snd (sample_submit_with sample_requests_post_table))) =
  Ok (Some (2, 1, 1)).
Proof.
  assert (H : filter qualifies (reply_lines sample_reply) <> [])
    by (vm_compute; discriminate).
  split; [exact H|].
  exact (submit_then_results_page sample_pdf_pages sample_docx_outline
           sample_read_utf8 sample_str_of_exn sample_str_of_int
           sample_format_prompt sample_requests_post_table
           sample_interview sample_outline sample_world sample_questions
           sample_reply eq_refl eq_refl eq_refl H).
Defined.

Lemma submit_then_results_page_no_records_witness :
  filter qualifies (reply_lines (lit "I could not find any answers.")) = [] /\
  processed (session_state
               (snd (sample_submit_with sample_requests_post_prose))) =
    true /\
  results (session_state
             (snd (sample_submit_with sample_requests_post_prose))) =
    Some {| Pd.columns := []; Pd.rows := [] |} /\
  results_page
    (session_state (snd (sample_submit_with sample_requests_post_prose))) =
    Raise (KeyError key_coverage).
Proof.
  split; [reflexivity|].
  exact (submit_then_results_page_no_records sample_pdf_pages
           sample_docx_outline sample_read_utf8 sample_str_of_exn
           sample_str_of_int sample_format_prompt sample_requests_post_prose
           sample_interview sample_outline sample_world sample_questions
           (lit "I could not find any answers.")
           eq_refl eq_refl eq_refl eq_refl eq_refl).
Defined.

(** ** The restart button *)

Section Restart.

Variable pdf_pages : list N -> result (list str).
Variable docx_paragraphs : list N -> result (list str).
Variable read_utf8 : list N -> result str.
Variable str_of_exn : exn -> str.
Variable str_of_int : N -> str.
Variable format_prompt : str -> list str -> str.
Variable requests_post : str -> str -> result Response.

Local Abbreviation submit :=
  (on_submit pdf_pages docx_paragraphs read_utf8 str_of_exn str_of_int
     format_prompt requests_post).

(** The session after the handler does not depend on what was shown
    before. *)
Lemma submit_session_independent_of_trace
  (interview outline : option UploadedFile) (s : SessionState)
  (t1 t2 : list event) :
  session_state
    (snd (submit interview outline {| session_state := s; trace := t1 |})) =
  session_state
    (snd (submit interview outline {| session_state := s; trace := t2 |})).
Proof.
  destruct interview as [i|]; [destruct outline as [o|]|]; try reflexivity.
  destruct (truthy (deepseek_api_key s)) eqn:Hkey.
  - rewrite !on_submit_exact by exact Hkey. reflexivity.
  - unfold on_submit, abind, read_state, emit. cbn. now rewrite Hkey.
Qed.

(** X18: the restart button returns the session to the one the script starts
    with, keeping only the credential, whatever the session held; the
    results page is then not shown, and the next submit leaves the same
    session as a submit on a fresh session. *)
Theorem restart_gives_fresh_session
  (interview outline : option UploadedFile) (w : World) :
  let key := deepseek_api_key (session_state w) in
  on_restart w =
    (Ok tt, {| session_state := initial_session key;
               trace := trace w ++ [StRerun] |}) /\
  results_page (initial_session key) = Ok None /\
  session_state (snd (submit interview outline (snd (on_restart w)))) =
  session_state
    (snd (submit interview outline
            {| session_state := initial_session key; trace := [] |})).
Proof.
  cbv zeta. split; [reflexivity|]. split; [reflexivity|].
  apply submit_session_independent_of_trace.
Qed.

End Restart.

Lemma extract_text_other_extension_witness :
  endswith (name sample_upper_case) ext_pdf = false /\
  extract_text_from_file sample_pdf_pages sample_docx_paragraphs
    sample_read_utf8 sample_str_of_exn sample_upper_case sample_world =
  (Ok [], sample_world).
Proof.
  split; [reflexivity|].
  apply (extract_text_other_extension sample_pdf_pages
           sample_docx_paragraphs sample_read_utf8 sample_str_of_exn
           sample_upper_case sample_world); reflexivity.
Defined.

(** ** The record of a line, in the data and in the frame *)

Lemma parse_response_data_shape (reply : str) (data : list dict) :
  parse_response_data reply = Ok data -> Forall is_coverage_record data.
Proof.
  rewrite parse_response_data_lines. intros H. inversion H; subst.
  apply flat_map_records_shape.
Qed.

Lemma from_records_coverage (data : list dict) :
  data <> [] -> Forall is_coverage_record data ->
  Pd.from_records data =
  {| Pd.columns := [key_question; key_summary; key_coverage; key_followup];
     Pd.rows := map record_row data |}.
Proof.
  intros Hne H. unfold Pd.from_records.
  now rewrite (record_columns_nonempty data Hne H).
Qed.

Lemma nth_error_middle {A} (l1 l2 : list A) (x : A) :
  nth_error (l1 ++ x :: l2) (length l1) = Some x.
Proof.
  rewrite nth_error_app2 by lia. now rewrite Nat.sub_diag.
Qed.

(** A line that contributes one record: the data and the frame of the whole
    reply around it. *)
Lemma record_in_context
  (before after : list str) (line : str) (q s c f : str) :
  has_char NL line = false ->
  line_records line = [coverage_record q s c f] ->
  exists d1 d2 df,
    parse_response_data (join nl before) = Ok d1 /\
    parse_response_data (join nl after) = Ok d2 /\
    parse_response_data (join nl (before ++ line :: after)) =
      Ok (d1 ++ coverage_record q s c f :: d2) /\
    parse_response (join nl (before ++ line :: after)) =
      Ok (Pd.from_records (d1 ++ coverage_record q s c f :: d2)) /\
    parse_response (join nl (before ++ line :: after)) = Ok df /\
    Pd.columns df =
      [key_question; key_summary; key_coverage; key_followup] /\
    Pd.len df = length d1 + 1 + length d2 /\
    nth_error (Pd.rows df) (length d1) =
      Some [Some q; Some s; Some c; Some f].
Proof.
  intros Hnl Hrec.
  destruct (parse_response_context before after line Hnl)
    as (d1 & d2 & H1 & H2 & H).
  rewrite Hrec in H. cbn [app] in H.
  pose proof (parse_response_data_shape _ _ H1) as S1.
  pose proof (parse_response_data_shape _ _ H2) as S2.
  assert (Hall : Forall is_coverage_record
                   (d1 ++ coverage_record q s c f :: d2)).
  { apply Forall_app. split; [exact S1|].
    constructor; [now exists q, s, c, f | exact S2]. }
  assert (Hne : d1 ++ coverage_record q s c f :: d2 <> [])
    by (destruct d1; discriminate).
  exists d1, d2, (Pd.from_records (d1 ++ coverage_record q s c f :: d2)).
  repeat split; try assumption.
  - pose proof H1 as E1. pose proof H2 as E2.
    rewrite parse_response_data_lines in E1, E2 |- *.
    injection E1 as E1. injection E2 as E2. rewrite <- E1, <- E2. f_equal.
    change (line :: after) with ([line] ++ after).
    rewrite !records_join_app. simpl join.
    now rewrite (records_single_line line Hnl), Hrec.
  - now rewrite (from_records_coverage _ Hne Hall).
  - rewrite len_from_records, length_app. simpl. lia.
  - rewrite (from_records_coverage _ Hne Hall). cbn [Pd.rows].
    rewrite map_app. cbn [map].
    rewrite <- (length_map record_row d1). apply nth_error_middle.
Qed.

(** C1: a reply line with at least four trimmed fields yields exactly one
    record, whose question, summary, coverage and follow-up are its first
    four fields in that order; the fields after the fourth are dropped and
    nothing is raised.  In the list the parser builds the record sits
    between the records of the lines before and after it, and in the frame
    it is the row at that position, under the four columns. *)
Theorem parse_four_or_more_fields
  (before after : list str) (line q s c f : str) (extra : list str) :
  has_char NL line = false ->
  fields line = q :: s :: c :: f :: extra ->
  exists d1 d2 df,
    parse_response_data (join nl before) = Ok d1 /\
    parse_response_data (join nl after) = Ok d2 /\
    parse_response_data (join nl (before ++ line :: after)) =
      Ok (d1 ++ coverage_record q s c f :: d2) /\
    parse_response (join nl (before ++ line :: after)) =
      Ok (Pd.from_records (d1 ++ coverage_record q s c f :: d2)) /\
    parse_response (join nl (before ++ line :: after)) = Ok df /\
    Pd.columns df =
      [key_question; key_summary; key_coverage; key_followup] /\
    Pd.len df = length d1 + 1 + length d2 /\
    nth_error (Pd.rows df) (length d1) =
      Some [Some q; Some s; Some c; Some f] /\
    coverage_record q s c f =
      [(key_question, q); (key_summary, s); (key_coverage, c);
       (key_followup, f)] /\
    dict_get (coverage_record q s c f) key_question = Some q /\
    dict_get (coverage_record q s c f) key_summary = Some s /\
    dict_get (coverage_record q s c f) key_coverage = Some c /\
    dict_get (coverage_record q s c f) key_followup = Some f.
Proof.
  intros Hnl E.
  destruct (record_in_context before after line q s c f Hnl
              (line_records_four line q s c f extra E))
    as (d1 & d2 & df & H).
  exists d1, d2, df. decompose [and] H. repeat split; assumption.
Qed.

Lemma parse_four_or_more_fields_witness :
  has_char NL (lit "Q1 | summary text | ok | ask more | and | more") = false /\
  fields (lit "Q1 | summary text | ok | ask more | and | more") =
    [lit "Q1"; lit "summary text"; lit "ok"; lit "ask more"; lit "and";
     lit "more"] /\
  exists d1 d2 df,
    parse_response_data (join nl [lit "Here is the table:"; lit ""]) = Ok d1 /\
    parse_response_data (join nl [lit "Q2 | s2 | ok"]) = Ok d2 /\
    parse_response_data
      (join nl ([lit "Here is the table:"; lit ""] ++
                lit "Q1 | summary text | ok | ask more | and | more" ::
                [lit "Q2 | s2 | ok"])) =
      Ok (d1 ++ coverage_record (lit "Q1") (lit "summary text") (lit "ok")
                  (lit "ask more") :: d2) /\
    parse_response
      (join nl ([lit "Here is the table:"; lit ""] ++
                lit "Q1 | summary text | ok | ask more | and | more" ::
                [lit "Q2 | s2 | ok"])) =
      Ok (Pd.from_records
            (d1 ++ coverage_record (lit "Q1") (lit "summary text") (lit "ok")
                     (lit "ask more") :: d2)) /\
    parse_response
      (join nl ([lit "Here is the table:"; lit ""] ++
                lit "Q1 | summary text | ok | ask more | and | more" ::
                [lit "Q2 | s2 | ok"])) = Ok df /\
    Pd.columns df =
      [key_question; key_summary; key_coverage; key_followup] /\
    Pd.len df = length d1 + 1 + length d2 /\
    nth_error (Pd.rows df) (length d1) =
      Some [Some (lit "Q1"); Some (lit "summary text"); Some (lit "ok");
            Some (lit "ask more")] /\
    coverage_record (lit "Q1") (lit "summary text") (lit "ok")
      (lit "ask more") =
      [(key_question, lit "Q1"); (key_summary, lit "summary text");
       (key_coverage, lit "ok"); (key_followup, lit "ask more")] /\
    dict_get (coverage_record (lit "Q1") (lit "summary text") (lit "ok")
                (lit "ask more")) key_question = Some (lit "Q1") /\
    dict_get (coverage_record (lit "Q1") (lit "summary text") (lit "ok")
                (lit "ask more")) key_summary = Some (lit "summary text") /\
    dict_get (coverage_record (lit "Q1") (lit "summary text") (lit "ok")
                (lit "ask more")) key_coverage = Some (lit "ok") /\
    dict_get (coverage_record (lit "Q1") (lit "summary text") (lit "ok")
                (lit "ask more")) key_followup = Some (lit "ask more").
Proof.
  split; [reflexivity|]. split; [reflexivity|].
  apply (parse_four_or_more_fields
           [lit "Here is the table:"; lit ""] [lit "Q2 | s2 | ok"]
           (lit "Q1 | summary text | ok | ask more | and | more")
           (lit "Q1") (lit "summary text") (lit "ok") (lit "ask more")
           [lit "and"; lit "more"]); reflexivity.
Defined.

(** The reply of the witness of C1, evaluated: three lines give no record,
    the four-field line and the three-field line give one each. *)
Example parse_four_or_more_fields_run :
  parse_response_data
    (join nl [lit "Here is the table:"; lit "";
              lit "Q1 | summary text | ok | ask more | and | more";
              lit "Q2 | s2 | ok"]) =
  Ok [ [(key_question, lit "Q1"); (key_summary, lit "summary text");
        (key_coverage, lit "ok"); (key_followup, lit "ask more")];
       [(key_question, lit "Q2"); (key_summary, lit "s2");
        (key_coverage, lit "ok"); (key_followup, followup_placeholder)] ] /\
  parse_response
    (join nl [lit "Here is the table:"; lit "";
              lit "Q1 | summary text | ok | ask more | and | more";
              lit "Q2 | s2 | ok"]) =
  Ok {| Pd.columns :=
          [key_question; key_summary; key_coverage; key_followup];
        Pd.rows :=
          [ [Some (lit "Q1"); Some (lit "summary text"); Some (lit "ok");
             Some (lit "ask more")];
            [Some (lit "Q2"); Some (lit "s2"); Some (lit "ok");
             Some followup_placeholder] ] |}.
Proof. split; reflexivity. Qed.

(** C9: the placeholder depends on the number of fields only.  A line with
    exactly four fields whose fourth is empty, such as a line that ends in
    the delimiter, yields a record whose follow-up is the empty string: in
    the list the parser builds and in the row of the frame the follow-up is
    empty, not the placeholder. *)
Theorem parse_empty_fourth_field
  (before after : list str) (line q s c : str) :
  has_char NL line = false ->
  fields line = [q; s; c; []] ->
  exists d1 d2 df,
    parse_response_data (join nl before) = Ok d1 /\
    parse_response_data (join nl after) = Ok d2 /\
    parse_response_data (join nl (before ++ line :: after)) =
      Ok (d1 ++ [(key_question, q); (key_summary, s); (key_coverage, c);
                 (key_followup, [])] :: d2) /\
    parse_response (join nl (before ++ line :: after)) =
      Ok (Pd.from_records (d1 ++ coverage_record q s c [] :: d2)) /\
    parse_response (join nl (before ++ line :: after)) = Ok df /\
    Pd.columns df =
      [key_question; key_summary; key_coverage; key_followup] /\
    Pd.len df = length d1 + 1 + length d2 /\
    nth_error (Pd.rows df) (length d1) =
      Some [Some q; Some s; Some c; Some []] /\
    dict_get (coverage_record q s c []) key_followup = Some [] /\
    dict_get (coverage_record q s c []) key_followup <>
      Some followup_placeholder /\
    followup_placeholder <> [].
Proof.
  intros Hnl E.
  destruct (record_in_context before after line q s c [] Hnl
              (line_records_four line q s c [] [] E))
    as (d1 & d2 & df & H).
  exists d1, d2, df. decompose [and] H.
  repeat split; try assumption; discriminate.
Qed.

Lemma parse_empty_fourth_field_witness :
  has_char NL (lit "Q1 | s | ok |") = false /\
  fields (lit "Q1 | s | ok |") = [lit "Q1"; lit "s"; lit "ok"; []] /\
  exists d1 d2 df,
    parse_response_data (join nl [lit "Q0 | s0 | ok"]) = Ok d1 /\
    parse_response_data (join nl []) = Ok d2 /\
    parse_response_data
      (join nl ([lit "Q0 | s0 | ok"] ++ lit "Q1 | s | ok |" :: [])) =
      Ok (d1 ++ [(key_question, lit "Q1"); (key_summary, lit "s");
                 (key_coverage, lit "ok"); (key_followup, [])] :: d2) /\
    parse_response
      (join nl ([lit "Q0 | s0 | ok"] ++ lit "Q1 | s | ok |" :: [])) =
      Ok (Pd.from_records
            (d1 ++ coverage_record (lit "Q1") (lit "s") (lit "ok") [] :: d2)) /\
    parse_response
      (join nl ([lit "Q0 | s0 | ok"] ++ lit "Q1 | s | ok |" :: [])) = Ok df /\
    Pd.columns df =
      [key_question; key_summary; key_coverage; key_followup] /\
    Pd.len df = length d1 + 1 + length d2 /\
    nth_error (Pd.rows df) (length d1) =
      Some [Some (lit "Q1"); Some (lit "s"); Some (lit "ok"); Some []] /\
    dict_get (coverage_record (lit "Q1") (lit "s") (lit "ok") [])
      key_followup = Some [] /\
    dict_get (coverage_record (lit "Q1") (lit "s") (lit "ok") [])
      key_followup <> Some followup_placeholder /\
    followup_placeholder <> [].
Proof.
  split; [reflexivity|]. split; [reflexivity|].
  apply (parse_empty_fourth_field [lit "Q0 | s0 | ok"] []
           (lit "Q1 | s | ok |") (lit "Q1") (lit "s") (lit "ok"));
    reflexivity.
Defined.

(** The reply of the witness of C9, evaluated: the three-field line gets the
    placeholder, the line that ends in the delimiter gets the empty
    follow-up. *)
Example parse_empty_fourth_field_run :
  parse_response_data (join nl [lit "Q0 | s0 | ok"; lit "Q1 | s | ok |"]) =
  Ok [ [(key_question, lit "Q0"); (key_summary, lit "s0");
        (key_coverage, lit "ok"); (key_followup, [0x65E0%N])];
       [(key_question, lit "Q1"); (key_summary, lit "s");
        (key_coverage, lit "ok"); (key_followup, [])] ] /\
  parse_response (join nl [lit "Q0 | s0 | ok"; lit "Q1 | s | ok |"]) =
  Ok {| Pd.columns :=
          [key_question; key_summary; key_coverage; key_followup];
        Pd.rows :=
          [ [Some (lit "Q0"); Some (lit "s0"); Some (lit "ok");
             Some [0x65E0%N]];
            [Some (lit "Q1"); Some (lit "s"); Some (lit "ok"); Some []] ] |}.
Proof. split; reflexivity. Qed.

(** ** What can raise in the parser and the splitter *)







(** When the encoding constructor returns, the frame is the one of
    [parse_response]. *)
Lemma parse_response_utf8_frame (text : str) (df : Pd.DataFrame) :
  parse_response_utf8 text = Ok df -> parse_response text = Ok df.
Proof.
  unfold parse_response_utf8, parse_response, Pd.from_records_utf8.
  destruct (parse_response_data text) as [data|e]; cbn [bind];
    [|discriminate].
  match goal with
  | |- context [if ?b then _ else _] => destruct b
  end; [trivial | discriminate].
Qed.


